(** * ilp-plugin-ethereum: the per-peer account of [src/account.ts]

    A shallow embedding of [EthereumAccount]: the balance accounting of the
    [ilp] branch of [handleData], the address linking of
    [linkEthereumAddress], the claim signing of [sendMoney], the claim
    validation of [validateClaim] and the profitability gate of
    [claimIfProfitable].

    Conventions of the embedding:
    - amounts are [BigNumber.t], a model of bignumber.js 7 on the integers
      (wei and gwei amounts are integers), with its signed zero; [NaN], the
      infinities and fractions are not part of it, so a string that is no
      decimal integer (which [new BigNumber] reads as [NaN]) has no
      counterpart here;
    - the account, the store, the watcher handle and the calls that leave the
      account (money handler, outgoing claims, transactions) form a [World]
      that every operation takes and returns; an assignment to a field of
      [this.account] goes through the [set] trap of its [Proxy] and writes
      the account to the store before it takes effect;
    - a reducer of a [ReducerQueue] is a function of the cached channel that
      returns the next cached channel; one reducer runs at a time, and one
      packet is handled at a time; the [data] event that the queue emits
      after a reduction, on which the account is persisted once more, is
      the queue's and shows where the queue is run, in [handleData];
    - what the chain, the peer and the local data handler answer is an
      argument of the operation that asks; the money handler and
      [sendMessage] return;
    - log calls are left out. *)

From stdpp Require Import gmap strings list.
From Stdlib Require Import ZArith Lia Ascii String.

Local Open Scope Z_scope.

(** ** bignumber.js *)

Module BigNumber.

(** A BigNumber is a sign [s], a coefficient [c] and an exponent [e]; zero
    keeps its sign, so there are two zeros.  [Int 0] is [+0] ([s = 1]) and
    [NegZero] is [-0] ([s = -1]); [Int z] for [z <> 0] has the sign of [z].
    Only the integers are modelled: [NaN] ([s = null]), [Infinity] and the
    numbers with decimals are no values of [t]. *)
Inductive t : Type :=
| NegZero
| Int (z : Z).

Definition value (x : t) : Z :=
  match x with
  | NegZero => 0
  | Int z => z
  end.

(** [P.isNegative = function () { return this.s < 0 }] *)
Definition isNegative (x : t) : bool :=
  match x with
  | NegZero => true
  | Int z => z <? 0
  end.

(** [P.isPositive = function () { return this.s > 0 }]: a test of the sign,
    which [+0] passes. *)
Definition isPositive (x : t) : bool :=
  match x with
  | NegZero => false
  | Int z => 0 <=? z
  end.

(** [P.comparedTo]: the two zeros compare equal. *)
Definition isGreaterThan (x y : t) : bool := value y <? value x.
Definition isLessThan (x y : t) : bool := value x <? value y.
Definition isGreaterThanOrEqualTo (x y : t) : bool := value y <=? value x.

(** [P.plus]: the sum of two zeros of one sign keeps the sign, [n + (-n)] is
    [+0] (the rounding mode is the default, not ROUND_FLOOR). *)
Definition plus (x y : t) : t :=
  match x, y with
  | NegZero, NegZero => NegZero
  | _, _ => Int (value x + value y)
  end.

(** [P.minus]: [x - y] is [x + (-y)] when the signs differ; [n - n] is [+0]. *)
Definition minus (x y : t) : t :=
  match x, y with
  | NegZero, Int 0 => NegZero
  | _, _ => Int (value x - value y)
  end.

(** [BigNumber.min = maxOrMin(arguments, P.gt)]: starts from the first
    argument and moves to the next one when the current one is greater. *)
Definition min (x y : t) : t := if isGreaterThan x y then y else x.

(** [BigNumber.max = maxOrMin(arguments, P.lt)]. *)
Definition max (x y : t) : t := if isLessThan x y then y else x.

(** [P.decimalPlaces(0, ROUND_DOWN)] after a division by [10^k]: ROUND_DOWN
    rounds towards zero and the result keeps the sign of the operand. *)
Definition shiftedDown (k : Z) (x : t) : t :=
  match x with
  | NegZero => NegZero
  | Int z =>
      let q := Z.quot z (10 ^ k) in
      if (q =? 0) && (z <? 0) then NegZero else Int q
  end.

(** Multiplication by [10^k]. *)
Definition shiftedUp (k : Z) (x : t) : t :=
  match x with
  | NegZero => NegZero
  | Int z => Int (z * 10 ^ k)
  end.

End BigNumber.

(** ** @kava-labs/crypto-rate-utils, between the units of one asset *)

(** [convert(gwei(x), wei())] *)
Definition convert_gwei_wei (x : BigNumber.t) : BigNumber.t :=
  BigNumber.shiftedUp 9 x.

(** [convert(wei(x), gwei()).decimalPlaces(0, BigNumber.ROUND_DOWN)] *)
Definition convert_wei_gwei_dp0 (x : BigNumber.t) : BigNumber.t :=
  BigNumber.shiftedDown 9 x.

(** ** Data model *)

(** [toLowerCase] on the ASCII letters, which is all that hexadecimal
    addresses hold. *)
Definition ascii_toLowerCase (c : ascii) : ascii :=
  let n := nat_of_ascii c in
  if (Nat.leb 65 n && Nat.leb n 90)%bool then ascii_of_nat (n + 32) else c.

Fixpoint toLowerCase (s : string) : string :=
  match s with
  | EmptyString => EmptyString
  | String c r => String (ascii_toLowerCase c) (toLowerCase r)
  end.

(** A value is truthy in a JavaScript condition unless it is [undefined] or
    the empty string (among the values an optional string takes). *)
Definition truthy (s : option string) : bool :=
  match s with
  | None => false
  | Some EmptyString => false
  | Some (String _ _) => true
  end.

Module PaymentChannel.

(** Modelled from the spec: the interface [PaymentChannel] of
    [utils/contract.ts], with the fields of the data model section and of the
    on-chain view [channels(channelId)]; [ClaimablePaymentChannel] has the
    same shape. *)
Record t : Type := mk {
  channelId : string;
  contractAddress : string;
  sender : string;
  receiver : string;
  value : BigNumber.t;
  disputePeriod : BigNumber.t;
  disputedUntil : option BigNumber.t;
  spent : BigNumber.t;
  signature : option string
}.

End PaymentChannel.

Module SerializedClaim.

(** The payload of the [machinomy] sub-protocol once it has passed
    [hasValidSchema]; [value] is the decimal string read by
    [new BigNumber(claim.value)]. The string is taken to be a decimal
    integer: a claim whose [value] reads as [NaN] is no value of [t]. *)
Record t : Type := mk {
  value : BigNumber.t;
  channelId : string;
  signature : string;
  contractAddress : string
}.

End SerializedClaim.

(** [AccountData]; the two queues hold a cached channel each, which the
    reducers below take and return. *)
Record AccountData : Type := mkAccountData {
  accountName : string;
  receivableBalance : BigNumber.t;
  payableBalance : BigNumber.t;
  payoutAmount : BigNumber.t;
  ethereumAddress : option string
}.

(** What the account reads of [this.master]. *)
Record EthereumPlugin : Type := mkEthereumPlugin {
  _ethereumAddress : string;
  _privateKey : string;
  _contract_options_address : string;
  _maxPacketAmount : BigNumber.t;
  _maxBalance : BigNumber.t;
  _minIncomingDisputePeriod : BigNumber.t
}.

(** The calls that leave the account. *)
Inductive Call : Type :=
| moneyHandler (amount : BigNumber.t)
| sendClaim (channel : PaymentChannel.t)
| sendTransaction_claim (channelId : string) (spent : BigNumber.t)
    (signature : option string).

(** The state that the operations of an account work on.

    Modelled from the spec: [this.master._store] is a key-value store with
    two families of keys, [<accountName>:account] for the account and
    [<channelId>:incoming-channel] for the name of the account that the
    channel is linked to. [_store] is the second family, the strings that
    [_store.get(channelKey)] returns. [_store_accounts] is the first
    family, by account name: [persistAccountData] hands [_store.set] the
    object [this.account] itself, so what is recorded is that the store
    holds the account, whose fields are those of [account]. A key of one
    family is never a key of the other ([channelKey_accountKey] below). *)
Record World : Type := mkWorld {
  account : AccountData;
  _store : gmap string string;
  _store_accounts : gset string;
  watcher : bool;
  calls : list Call
}.

(** The store key of an account. *)
Definition accountKey (name : string) : string := name +:+ ":account".

(** [persistAccountData()]:
    [this.master._store.set(`${this.account.accountName}:account`,
    this.account)]. *)
Definition persistAccountData (w : World) : World :=
  mkWorld (account w) (_store w)
    ({[ accountName (account w) ]} ∪ _store_accounts w) (watcher w) (calls w).

(** [this.account.receivableBalance = b], through the [set] trap of the
    [Proxy]: [this.persistAccountData()], then [Reflect.set(account, key,
    val)]. The three setters that follow are the same trap on the other
    fields. *)
Definition set_receivableBalance (b : BigNumber.t) (w : World) : World :=
  let w := persistAccountData w in
  let a := account w in
  mkWorld
    (mkAccountData (accountName a) b (payableBalance a) (payoutAmount a)
       (ethereumAddress a))
    (_store w) (_store_accounts w) (watcher w) (calls w).

Definition set_payableBalance (b : BigNumber.t) (w : World) : World :=
  let w := persistAccountData w in
  let a := account w in
  mkWorld
    (mkAccountData (accountName a) (receivableBalance a) b (payoutAmount a)
       (ethereumAddress a))
    (_store w) (_store_accounts w) (watcher w) (calls w).

Definition set_payoutAmount (b : BigNumber.t) (w : World) : World :=
  let w := persistAccountData w in
  let a := account w in
  mkWorld
    (mkAccountData (accountName a) (receivableBalance a) (payableBalance a) b
       (ethereumAddress a))
    (_store w) (_store_accounts w) (watcher w) (calls w).

Definition set_ethereumAddress (addr : string) (w : World) : World :=
  let w := persistAccountData w in
  let a := account w in
  mkWorld
    (mkAccountData (accountName a) (receivableBalance a) (payableBalance a)
       (payoutAmount a) (Some addr))
    (_store w) (_store_accounts w) (watcher w) (calls w).

(** [this.master._store.set(key, val)] with a string, under a channel key. *)
Definition store_set (key val : string) (w : World) : World :=
  mkWorld (account w) (<[key := val]> (_store w)) (_store_accounts w)
    (watcher w) (calls w).

(** [this.watcher = ...], a field of the [EthereumAccount] and not of
    [this.account]: no trap. *)
Definition set_watcher (b : bool) (w : World) : World :=
  mkWorld (account w) (_store w) (_store_accounts w) b (calls w).

Definition call (c : Call) (w : World) : World :=
  mkWorld (account w) (_store w) (_store_accounts w) (watcher w)
    (calls w ++ [c]).

(** The values [JSON.parse] returns. *)
#[local] Set Warnings "-register-all".
Inductive JSON : Type :=
| JNull
| JBoolean (b : bool)
| JNumber (z : Z)
| JString (s : string)
| JArray (items : list JSON)
| JObject (fields : list (string * JSON)).

(** The functions of other packages and of [utils/contract.ts] that the
    account calls and whose results it only tests or passes on. *)
Class Externals : Type := {
  (** [JSON.parse], [None] when it throws *)
  JSON_parse : string -> option JSON;
  (** [Web3.utils.isAddress] *)
  isAddress : string -> bool;
  (** [sign(privateKey, keccak256(prefix ++ soliditySha3(contractAddress,
      channelId, value)))] *)
  signDigest : string -> string -> string -> BigNumber.t -> string;
  (** [isValidClaimSignature] of [utils/contract.ts] *)
  isValidClaimSignature : SerializedClaim.t -> PaymentChannel.t -> bool;
  (** [isDisputed] of [utils/contract.ts] *)
  isDisputed : PaymentChannel.t -> bool
}.

(** ** The address-linking sub-protocol *)

(** The property [key] of a parsed object, whose keys are distinct. *)
Fixpoint lookup_field (key : string) (fields : list (string * JSON))
  : option JSON :=
  match fields with
  | [] => None
  | (k, v) :: rest => if String.eqb k key then Some v else lookup_field key rest
  end.

(** [const { ethereumAddress } = v]: a TypeError on [null] ([None]), the
    property of an object, and [undefined] on every other value. *)
Definition destructure_ethereumAddress (v : JSON) : option (option JSON) :=
  match v with
  | JNull => None
  | JObject fields => Some (lookup_field "ethereumAddress" fields)
  | _ => Some None
  end.

(** [linkEthereumAddress(info)], on [info.data.toString()]. Every early
    return and the [catch] leave the account as it is. *)
Definition linkEthereumAddress `{Externals} (info_data : string) (w : World)
  : World :=
  match JSON_parse info_data with
  | None => w
  | Some v =>
      match destructure_ethereumAddress v with
      | None => w
      | Some (Some (JString address)) =>
          if negb (isAddress address) then w
          else
            let currentAddress := ethereumAddress (account w) in
            if truthy currentAddress then
              (* the same address returns in silence, another one is logged
                 and dropped *)
              match currentAddress with
              | Some current =>
                  if String.eqb (toLowerCase current) (toLowerCase address)
                  then w
                  else w
              | None => w
              end
            else set_ethereumAddress address w
      | Some _ => w
      end
  end.

(** The address that an [info] message carries: the string property
    [ethereumAddress] of its JSON payload, when [isAddress] accepts it. *)
Definition info_ethereumAddress `{Externals} (info_data : string)
  : option string :=
  match JSON_parse info_data with
  | Some (JObject fields) =>
      match lookup_field "ethereumAddress" fields with
      | Some (JString address) =>
          if isAddress address then Some address else None
      | _ => None
      end
  | _ => None
  end.

(** A series of [info] messages, in the order they arrive. *)
Definition linkEthereumAddresses `{Externals} (infos : list string) (w : World)
  : World :=
  fold_left (fun w info_data => linkEthereumAddress info_data w) infos w.

(** ** ILP packets: the [ilp] branch of [handleData] *)

(** The errors the branch throws or catches; [OtherError] is anything thrown
    by the packet codec or by the data handler, with the [ilpErrorCode] it
    may carry. *)
Inductive IlpError : Type :=
| AmountTooLargeError (receivedAmount maximumAmount : BigNumber.t)
| InsufficientLiquidityError
| OtherError (code : option string).

(** [err.ilpErrorCode || 'F00'] of [errorToReject]. *)
Definition ilpErrorCode (e : IlpError) : string :=
  match e with
  | AmountTooLargeError _ _ => "F08"
  | InsufficientLiquidityError => "T04"
  | OtherError code =>
      match code with
      | Some (String c rest) => String c rest
      | _ => "F00"
      end
  end.

(** What [deserializeIlpReply] returns. *)
Inductive IlpReply : Type :=
| IlpFulfill
| IlpReject (code : string).

Definition isReject (r : IlpReply) : bool :=
  match r with IlpReject _ => true | IlpFulfill => false end.

(** The [data] of the [ilp] sub-protocol that [handleData] returns: the
    bytes of the data handler, which decode to a reply, or the reject that
    [errorToReject('', err)] builds. *)
Inductive IlpResponse : Type :=
| response (reply : IlpReply)
| errorToReject (err : IlpError).

(** From [deserializeIlpPrepare] to [this.account.receivableBalance =
    newBalance]: the packet is admitted ([inr]) or an error is thrown
    ([inl]). [prepare] is the amount of the packet, or the error that
    [deserializeIlpPrepare] throws. *)
Definition handleData_admit (master : EthereumPlugin)
    (prepare : IlpError + BigNumber.t) (w : World) : IlpError + World :=
  match prepare with
  | inl err => inl err
  | inr amount =>
      if BigNumber.isGreaterThan amount (_maxPacketAmount master)
      then inl (AmountTooLargeError amount (_maxPacketAmount master))
      else
        let newBalance :=
          BigNumber.plus (receivableBalance (account w)) amount in
        if BigNumber.isGreaterThan newBalance (_maxBalance master)
        then inl InsufficientLiquidityError
        else inr (set_receivableBalance newBalance w)
  end.

(** The [try] block of the [ilp] branch and its [catch]. [reply] is what
    [deserializeIlpReply(await this.dataHandler(ilp.data))] gives, or the
    error that either of the two throws. *)
Definition handleData_ilp (master : EthereumPlugin)
    (prepare : IlpError + BigNumber.t) (reply : IlpError + IlpReply)
    (w : World) : IlpResponse * World :=
  match handleData_admit master prepare w with
  | inl err => (errorToReject err, w)
  | inr admitted =>
      match prepare, reply with
      | inr amount, inr r =>
          if isReject r
          then
            (response r,
             set_receivableBalance
               (BigNumber.minus (receivableBalance (account admitted)) amount)
               admitted)
          else (response r, admitted)
      | inr amount, inl err => (errorToReject err, admitted)
      | inl err, _ => (errorToReject err, admitted)
      end
  end.

(** ** Outgoing claims: [sendMoney] *)

(** Modelled from the spec: [spentFromChannel] of [utils/contract.ts], the
    [spent] of the channel (wei, the last signed value). *)
Definition spentFromChannel (channel : PaymentChannel.t) : BigNumber.t :=
  PaymentChannel.spent channel.

(** Modelled from the spec: [remainingInChannel] of [utils/contract.ts],
    [remainingInChannel = value − spent]. *)
Definition remainingInChannel (channel : PaymentChannel.t) : BigNumber.t :=
  BigNumber.minus (PaymentChannel.value channel) (PaymentChannel.spent channel).

(** [signClaim(value, cachedChannel)] *)
Definition signClaim `{Externals} (master : EthereumPlugin)
    (value : BigNumber.t) (cachedChannel : PaymentChannel.t)
  : PaymentChannel.t :=
  let signature :=
    signDigest (_privateKey master)
      (PaymentChannel.contractAddress cachedChannel)
      (PaymentChannel.channelId cachedChannel) value in
  PaymentChannel.mk
    (PaymentChannel.channelId cachedChannel)
    (PaymentChannel.contractAddress cachedChannel)
    (PaymentChannel.sender cachedChannel)
    (PaymentChannel.receiver cachedChannel)
    (PaymentChannel.value cachedChannel)
    (PaymentChannel.disputePeriod cachedChannel)
    (PaymentChannel.disputedUntil cachedChannel)
    value
    (Some signature).

(** The reducer that [sendMoney(amount)] adds to the outgoing queue.
    [amount] is [None] when the argument is missing (or the empty string,
    which [amount || ...] skips as well). The reducer returns [undefined]
    when no channel is cached. *)
Definition sendMoney `{Externals} (master : EthereumPlugin)
    (amount : option BigNumber.t) (cachedChannel : option PaymentChannel.t)
    (w : World) : option PaymentChannel.t * World :=
  let amountToSend :=
    match amount with
    | Some a => a
    | None => BigNumber.max (BigNumber.Int 0) (payableBalance (account w))
    end in
  let w := set_payoutAmount
             (BigNumber.plus (payoutAmount (account w)) amountToSend) w in
  let settlementBudget := convert_gwei_wei (payoutAmount (account w)) in
  match cachedChannel with
  | None => (None, w)
  | Some cached =>
      if negb (BigNumber.isPositive (remainingInChannel cached))
      then (Some cached, w)
      else if negb (BigNumber.isPositive settlementBudget)
      then (Some cached, w)
      else
        let claimIncrement :=
          BigNumber.min (remainingInChannel cached) settlementBudget in
        let value := BigNumber.plus (spentFromChannel cached) claimIncrement in
        let updatedChannel := signClaim master value cached in
        let w := call (sendClaim updatedChannel) w in
        let claimIncrementGwei := convert_wei_gwei_dp0 claimIncrement in
        let w := set_payableBalance
                   (BigNumber.minus (payableBalance (account w))
                      claimIncrementGwei) w in
        let w := set_payoutAmount
                   (BigNumber.min (BigNumber.Int 0)
                      (BigNumber.minus (payoutAmount (account w))
                         claimIncrementGwei)) w in
        (Some updatedChannel, w)
  end.

(** ** Incoming claims: [validateClaim] *)

(** From [claimIncrement] to the returned channel: the accounting that
    follows the checks of either case. *)
Definition validateClaim_credit (claim : SerializedClaim.t)
    (cachedChannel : option PaymentChannel.t)
    (updatedChannel : PaymentChannel.t) (w : World)
  : option PaymentChannel.t * World :=
  let claimIncrement :=
    BigNumber.minus
      (BigNumber.min (SerializedClaim.value claim)
         (PaymentChannel.value updatedChannel))
      (match cachedChannel with
       | Some cached => PaymentChannel.spent cached
       | None => BigNumber.Int 0
       end) in
  let isBestClaim := BigNumber.isPositive claimIncrement in
  match isBestClaim, cachedChannel with
  | false, Some _ => (cachedChannel, w)
  | _, _ =>
      let w :=
        if isBestClaim then
          let amount := convert_wei_gwei_dp0 claimIncrement in
          call (moneyHandler amount)
            (set_receivableBalance
               (BigNumber.minus (receivableBalance (account w)) amount) w)
        else w in
      let w := if watcher w then w else set_watcher true w in
      (Some
         (PaymentChannel.mk
            (SerializedClaim.channelId claim)
            (SerializedClaim.contractAddress claim)
            (PaymentChannel.sender updatedChannel)
            (PaymentChannel.receiver updatedChannel)
            (PaymentChannel.value updatedChannel)
            (PaymentChannel.disputePeriod updatedChannel)
            (PaymentChannel.disputedUntil updatedChannel)
            (SerializedClaim.value claim)
            (Some (SerializedClaim.signature claim))),
       w)
  end.

(** The store key that links a channel to an account. *)
Definition channelKey (claim : SerializedClaim.t) : string :=
  SerializedClaim.channelId claim +:+ ":incoming-channel".

(** The last character of a string, [c] when it is empty: what tells a
    channel key from the key of an account. *)
Fixpoint lastCharacter (c : ascii) (s : string) : ascii :=
  match s with
  | EmptyString => c
  | String c' rest => lastCharacter c' rest
  end.

(** The reducer [validateClaim(claim)], by the number of attempts that
    remain: it is entered with [attempts = 0] and gives up once
    [attempts > 20], so [remaining] is [21 - attempts] and every retry takes
    one off. [fetchChannel attempts channelId] is what the chain answers at
    that attempt. *)
Fixpoint validateClaim_attempts `{Externals} (remaining : nat)
    (master : EthereumPlugin)
    (fetchChannel : nat -> string -> option PaymentChannel.t)
    (claim : SerializedClaim.t) (cachedChannel : option PaymentChannel.t)
    (w : World) {struct remaining} : option PaymentChannel.t * World :=
  match remaining with
  | O => (cachedChannel, w)
  | S remaining' =>
      let attempts := (20 - remaining')%nat in
      let retry :=
        validateClaim_attempts remaining' master fetchChannel claim
          cachedChannel w in
      let shouldFetchChannel :=
        match cachedChannel with
        | None => true
        | Some cached =>
            BigNumber.isGreaterThan (SerializedClaim.value claim)
              (PaymentChannel.value cached)
        end in
      let updatedChannel :=
        if shouldFetchChannel
        then fetchChannel attempts (SerializedClaim.channelId claim)
        else cachedChannel in
      match cachedChannel with
      | None =>
          match updatedChannel with
          | None => retry
          | Some updated =>
              if BigNumber.isNegative (SerializedClaim.value claim)
              then (None, w)
              else if negb
                        (String.eqb
                           (toLowerCase (SerializedClaim.contractAddress claim))
                           (toLowerCase (_contract_options_address master)))
              then (None, w)
              else if negb (isValidClaimSignature claim updated)
              then (None, w)
              else if negb
                        (String.eqb
                           (toLowerCase (PaymentChannel.receiver updated))
                           (toLowerCase (_ethereumAddress master)))
              then (None, w)
              else if negb
                        (BigNumber.isGreaterThanOrEqualTo
                           (PaymentChannel.disputePeriod updated)
                           (_minIncomingDisputePeriod master))
              then (None, w)
              else
                match _store w !! channelKey claim with
                | Some linkedAccount => (None, w)
                | None =>
                    validateClaim_credit claim None updated
                      (store_set (channelKey claim) (accountName (account w))
                         w)
                end
          end
      | Some cached =>
          match updatedChannel with
          | None => (cachedChannel, w)
          | Some updated =>
              if negb
                   (BigNumber.isGreaterThanOrEqualTo
                      (PaymentChannel.value updated)
                      (SerializedClaim.value claim))
              then retry
              else if negb
                        (String.eqb (SerializedClaim.channelId claim)
                           (PaymentChannel.channelId cached))
              then (cachedChannel, w)
              else if negb (isValidClaimSignature claim updated)
              then (cachedChannel, w)
              else validateClaim_credit claim cachedChannel updated w
          end
      end
  end.

Definition validateClaim `{Externals} (master : EthereumPlugin)
    (fetchChannel : nat -> string -> option PaymentChannel.t)
    (claim : SerializedClaim.t) (cachedChannel : option PaymentChannel.t)
    (w : World) : option PaymentChannel.t * World :=
  validateClaim_attempts 21 master fetchChannel claim cachedChannel w.

(** ** Claiming the incoming channel: [claimIfProfitable] *)

(** What a reducer hands to its queue: the next cached channel, or a
    failure. *)
Inductive Reduction : Type :=
| resolved (next : option PaymentChannel.t)
| rejected.

(** Modelled from the spec: the state cell of [ReducerQueue]
    ([utils/queue.ts]). If a reducer fails, the state cell is left
    unchanged. *)
Definition reduce (cachedChannel : option PaymentChannel.t) (r : Reduction)
  : option PaymentChannel.t :=
  match r with
  | resolved next => next
  | rejected => cachedChannel
  end.

(** [refreshChannel] of [claimIfProfitable], by the attempts that remain (as
    in [validateClaim_attempts]): [undefined] once the chain no longer knows
    the channel, the refreshed channel after the last attempt. *)
Fixpoint refreshChannel_claimed (remaining : nat)
    (fetchChannel : nat -> string -> option PaymentChannel.t)
    (updatedChannel : PaymentChannel.t) {struct remaining}
  : option PaymentChannel.t :=
  match remaining with
  | O => Some updatedChannel
  | S remaining' =>
      match fetchChannel (20 - remaining')%nat
              (PaymentChannel.channelId updatedChannel) with
      | None => None
      | Some _ => refreshChannel_claimed remaining' fetchChannel updatedChannel
      end
  end.

(** The reducer that [claimIfProfitable(requireDisputed, authorize)] adds to
    the incoming queue. [updateChannel] is the refresh of [utils/contract.ts]
    against the chain, [txFee] the fee that [prepareTransaction] estimates,
    [authorize] answers [true] when its promise resolves, [confirmed] tells
    whether the transaction reaches its first confirmation (it is reverted
    or fails otherwise), [fetchChannel] is the chain after the
    confirmation. *)
Definition claimIfProfitable `{Externals} (requireDisputed : bool)
    (authorize : option (PaymentChannel.t -> BigNumber.t -> bool))
    (updateChannel : PaymentChannel.t -> option PaymentChannel.t)
    (txFee : BigNumber.t) (confirmed : bool)
    (fetchChannel : nat -> string -> option PaymentChannel.t)
    (cachedChannel : option PaymentChannel.t) (w : World)
  : Reduction * World :=
  match cachedChannel with
  | None => (resolved cachedChannel, w)
  | Some cached =>
      if negb (truthy (PaymentChannel.signature cached))
      then (resolved cachedChannel, w)
      else
        match updateChannel cached with
        | None => (resolved None, w)
        | Some updatedChannel =>
            let spent := PaymentChannel.spent updatedChannel in
            if requireDisputed && negb (isDisputed updatedChannel)
            then (resolved (Some updatedChannel), w)
            else
              let proceed :=
                match authorize with
                | Some authorize => authorize updatedChannel txFee
                | None => negb (BigNumber.isGreaterThanOrEqualTo txFee spent)
                end in
              if negb proceed
              then (resolved (Some updatedChannel), w)
              else
                let w :=
                  call
                    (sendTransaction_claim
                       (PaymentChannel.channelId updatedChannel) spent
                       (PaymentChannel.signature updatedChannel)) w in
                if confirmed
                then
                  (resolved
                     (refreshChannel_claimed 21 fetchChannel updatedChannel),
                   w)
                else (rejected, w)
        end
  end.

(** ** A concrete setting, for the examples *)

(** Stand-ins for the external functions: the payload of [info] is read as
    the address itself (the text [null] as [null], the text [garbage] as a
    syntax error), an address is a string of 42 characters, every signature
    verifies, and a channel is disputed when [disputedUntil] is set. *)
Definition exampleExternals : Externals := {|
  JSON_parse := fun s =>
    if String.eqb s "garbage" then None
    else if String.eqb s "null" then Some JNull
    else Some (JObject [("ethereumAddress", JString s)]);
  isAddress := fun s => Nat.eqb (String.length s) 42;
  signDigest := fun key contract channel value => "0xsigned";
  isValidClaimSignature := fun claim channel => true;
  isDisputed := fun channel =>
    match PaymentChannel.disputedUntil channel with
    | Some _ => true
    | None => false
    end
|}.

Definition addressA : string := "0xaaaaaaaaaaaaaaaaaaaaaaaaaaaaaaaaaaaaaaaa".
Definition addressB : string := "0xbbbbbbbbbbbbbbbbbbbbbbbbbbbbbbbbbbbbbbbb".
Definition addressC : string := "0xCCCCCCCCCCCCCCCCCCCCCCCCCCCCCCCCCCCCCCCC".

Definition exampleMaster : EthereumPlugin := {|
  _ethereumAddress := addressA;
  _privateKey := "key";
  _contract_options_address := addressC;
  _maxPacketAmount := BigNumber.Int 1000;
  _maxBalance := BigNumber.Int 1000;
  _minIncomingDisputePeriod := BigNumber.Int 40
|}.

(** An account with the given balances (gwei) and nothing linked, which
    the store holds under [alice:account]. *)
Definition exampleWorld (receivable payable payout : Z) : World := {|
  account := {|
    accountName := "alice";
    receivableBalance := BigNumber.Int receivable;
    payableBalance := BigNumber.Int payable;
    payoutAmount := BigNumber.Int payout;
    ethereumAddress := None
  |};
  _store := ∅;
  _store_accounts := {[ "alice" ]};
  watcher := false;
  calls := []
|}.

(** A channel from [addressB] to [addressA] with the given escrow and last
    signed value (wei). *)
Definition exampleChannel (value spent : Z) : PaymentChannel.t := {|
  PaymentChannel.channelId := "0x01";
  PaymentChannel.contractAddress := addressC;
  PaymentChannel.sender := addressB;
  PaymentChannel.receiver := addressA;
  PaymentChannel.value := BigNumber.Int value;
  PaymentChannel.disputePeriod := BigNumber.Int 100;
  PaymentChannel.disputedUntil := None;
  PaymentChannel.spent := BigNumber.Int spent;
  PaymentChannel.signature := Some "0xsigned"
|}.

Definition exampleClaim (value : Z) : SerializedClaim.t := {|
  SerializedClaim.value := BigNumber.Int value;
  SerializedClaim.channelId := "0x01";
  SerializedClaim.signature := "0xsigned";
  SerializedClaim.contractAddress := addressC
|}.

(** The chain after a deposit of 1000 wei: what [updateChannel] answers for
    a cached channel. *)
Definition exampleDeposit (cached : PaymentChannel.t)
  : option PaymentChannel.t :=
  Some
    (PaymentChannel.mk
       (PaymentChannel.channelId cached)
       (PaymentChannel.contractAddress cached)
       (PaymentChannel.sender cached)
       (PaymentChannel.receiver cached)
       (BigNumber.plus (PaymentChannel.value cached) (BigNumber.Int 1000))
       (PaymentChannel.disputePeriod cached)
       (PaymentChannel.disputedUntil cached)
       (PaymentChannel.spent cached)
       (PaymentChannel.signature cached)).

(** The account [bob] on a store where the channel [0x01] is linked to
    [alice]. *)
Definition exampleWorldBob : World := {|
  account := {|
    accountName := "bob";
    receivableBalance := BigNumber.Int 0;
    payableBalance := BigNumber.Int 0;
    payoutAmount := BigNumber.Int 0;
    ethereumAddress := None
  |};
  _store := {[ "0x01:incoming-channel" := "alice" ]};
  _store_accounts := {[ "alice" ]};
  watcher := false;
  calls := []
|}.

(** ** Replies to forwarded packets: [handlePrepareResponse] *)

(** [handlePrepareResponse(prepare, reply)], on the amount of the PREPARE. The
    flag tells whether [this.sendMoney()] is called, which adds the reducer
    [sendMoney None] to the outgoing queue. *)
Definition handlePrepareResponse (amount : BigNumber.t) (reply : IlpReply)
    (w : World) : World * bool :=
  let w :=
    match reply with
    | IlpFulfill =>
        set_payableBalance (BigNumber.plus (payableBalance (account w)) amount)
          w
    | IlpReject _ => w
    end in
  let shouldSettle :=
    match reply with
    | IlpFulfill => true
    | IlpReject code => String.eqb code "T04"
    end in
  (w, shouldSettle).

(** ** The channel watcher *)

(** The reducer that every tick of [startChannelWatcher] adds to the incoming
    queue. The watcher stops ([this.watcher = null; clearInterval(timer)])
    when no channel is cached or the chain no longer knows it. The flag tells
    whether [this.claimIfProfitable(true)] is called. *)
Definition startChannelWatcher_reducer `{Externals}
    (updateChannel : PaymentChannel.t -> option PaymentChannel.t)
    (cachedChannel : option PaymentChannel.t) (w : World)
  : option PaymentChannel.t * World * bool :=
  match cachedChannel with
  | None => (cachedChannel, set_watcher false w, false)
  | Some cached =>
      match updateChannel cached with
      | None => (None, set_watcher false w, false)
      | Some updatedChannel =>
          (Some updatedChannel, w, isDisputed updatedChannel)
      end
  end.

(** ** Funding the outgoing channel: [fundOutgoingChannel] *)

(** [fetchEthereumAddress()]. [infoResponse] is what the peer answers to the
    [info] request: [None] when [sendMessage] fails, [Some None] when the
    response has no [info] sub-protocol, and the data of that sub-protocol
    otherwise. Nothing is asked when the address is a string already. *)
Definition fetchEthereumAddress `{Externals}
    (infoResponse : option (option string)) (w : World) : World :=
  match ethereumAddress (account w) with
  | Some _ => w
  | None =>
      match infoResponse with
      | Some (Some info_data) => linkEthereumAddress info_data w
      | _ => w
      end
  end.

(** The transactions of [fundOutgoingChannel], with the wei they carry and
    the address that sends them. *)
Inductive FundingTransaction : Type :=
| tx_open (channelId receiver : string) (disputePeriod : BigNumber.t)
    (value : BigNumber.t) (from : string)
| tx_deposit (channelId : string) (value : BigNumber.t) (from : string).

(** [refreshChannel] after the channel has been opened, by the attempts that
    remain: the first channel that the chain reports, [undefined] after the
    last attempt (an error of [fetchChannel] counts as no channel). *)
Fixpoint refreshChannel_opened (remaining : nat)
    (fetchChannel : nat -> string -> option PaymentChannel.t)
    (channelId : string) {struct remaining} : option PaymentChannel.t :=
  match remaining with
  | O => None
  | S remaining' =>
      match fetchChannel (20 - remaining')%nat channelId with
      | Some updatedChannel => Some updatedChannel
      | None => refreshChannel_opened remaining' fetchChannel channelId
      end
  end.

(** [refreshChannel] after a deposit: the first refreshed channel whose
    value reaches [totalNewValue], the channel from before the deposit after
    the last attempt. *)
Fixpoint refreshChannel_deposited (remaining : nat)
    (updateChannel : nat -> PaymentChannel.t -> option PaymentChannel.t)
    (totalNewValue : BigNumber.t) (channel : PaymentChannel.t)
    {struct remaining} : option PaymentChannel.t :=
  match remaining with
  | O => Some channel
  | S remaining' =>
      let retry :=
        refreshChannel_deposited remaining' updateChannel totalNewValue
          channel in
      match updateChannel (20 - remaining')%nat channel with
      | Some updatedChannel =>
          if BigNumber.isGreaterThanOrEqualTo
               (PaymentChannel.value updatedChannel) totalNewValue
          then Some updatedChannel
          else retry
      | None => retry
      end
  end.

(** The reducer that [fundOutgoingChannel(value, authorize)] adds to the
    outgoing queue, with the transactions it submits. [value] is in gwei.
    [outgoingDisputePeriod] is [this.master._outgoingDisputePeriod],
    [updateChannel] the refresh of the cached channel, [infoResponse] the
    answer of the peer to [fetchEthereumAddress], [channelId] the result of
    [generateChannelId()], [txFee] the fee that [prepareTransaction]
    estimates, [authorize] answers [true] when its promise resolves,
    [confirmed] tells whether the transaction reaches its first confirmation,
    and [fetchChannel], [updateChannel_after] are the chain after the
    confirmation, by attempt. *)
Definition fundOutgoingChannel `{Externals} (master : EthereumPlugin)
    (value : BigNumber.t) (authorize : BigNumber.t -> bool)
    (outgoingDisputePeriod : BigNumber.t)
    (updateChannel : PaymentChannel.t -> option PaymentChannel.t)
    (infoResponse : option (option string)) (channelId : string)
    (txFee : BigNumber.t) (confirmed : bool)
    (fetchChannel : nat -> string -> option PaymentChannel.t)
    (updateChannel_after : nat -> PaymentChannel.t -> option PaymentChannel.t)
    (cachedChannel : option PaymentChannel.t) (w : World)
  : Reduction * World * list FundingTransaction :=
  let valueWei := convert_gwei_wei value in
  let channel :=
    match cachedChannel with
    | Some cached => updateChannel cached
    | None => None
    end in
  match channel with
  | None =>
      let w := fetchEthereumAddress infoResponse w in
      match ethereumAddress (account w) with
      | Some (String c rest) =>
          let tx :=
            tx_open channelId (String c rest) outgoingDisputePeriod valueWei
              (_ethereumAddress master) in
          if negb (authorize txFee) then (rejected, w, [])
          else if confirmed
          then
            (resolved (refreshChannel_opened 21 fetchChannel channelId), w,
             [tx])
          else (rejected, w, [tx])
      | _ => (resolved None, w, [])
      end
  | Some channel =>
      let totalNewValue :=
        BigNumber.plus (PaymentChannel.value channel) value in
      let tx :=
        tx_deposit (PaymentChannel.channelId channel) valueWei
          (PaymentChannel.sender channel) in
      if negb (authorize txFee) then (rejected, w, [])
      else if confirmed
      then
        (resolved
           (refreshChannel_deposited 21 updateChannel_after totalNewValue
              channel),
         w, [tx])
      else (rejected, w, [tx])
  end.

(** ** From [sendClaim] to the peer *)

(** The claim that [sendClaim(channel)] serializes, as the [machinomy] branch
    of the peer reads it: [value] is [spent.toString()], which prints both
    zeros as [0], and a channel without a signature gives an object without
    the key [signature], which fails [hasValidSchema]. *)
Definition sendClaim_claim (channel : PaymentChannel.t)
  : option SerializedClaim.t :=
  match PaymentChannel.signature channel with
  | Some signature =>
      Some
        (SerializedClaim.mk
           (BigNumber.Int (BigNumber.value (PaymentChannel.spent channel)))
           (PaymentChannel.channelId channel)
           signature
           (PaymentChannel.contractAddress channel))
  | None => None
  end.

(** ** BTP messages: [handleData] *)

Record BtpSubProtocol : Type := mkBtpSubProtocol {
  protocolName : string;
  data : string
}.

(** [message.data.protocolData.find(p => p.protocolName === name)] *)
Definition getBtpSubprotocol (message : list BtpSubProtocol) (name : string)
  : option BtpSubProtocol :=
  List.find (fun p => String.eqb (protocolName p) name) message.

(** The sub-protocols that [handleData] answers with: [info] with our
    address, an empty [requestClose], and [ilp] with the reply or the
    reject. *)
Inductive BtpResponse : Type :=
| response_info (ethereumAddress : string)
| response_requestClose
| response_ilp (data : IlpResponse).

(** [hasValidSchema(o)] on the parsed claim, with the four strings when it
    holds: a TypeError on [null] ([None]); a value that is no object has none
    of the properties. *)
Definition hasValidSchema (o : JSON)
  : option (option (string * string * string * string)) :=
  match o with
  | JNull => None
  | JObject fields =>
      match lookup_field "value" fields, lookup_field "channelId" fields,
            lookup_field "signature" fields,
            lookup_field "contractAddress" fields with
      | Some (JString value), Some (JString channelId),
        Some (JString signature), Some (JString contractAddress) =>
          Some (Some (value, channelId, signature, contractAddress))
      | _, _, _, _ => Some None
      end
  | _ => Some (None)
  end.

(** What the other side of [handleData] answers: the packet codec, the local
    data handler (with [deserializeIlpReply] on its result), the chain, and
    [new BigNumber] on the decimal string of a claim (on the strings that
    are decimal integers: the others read as [NaN], which [BigNumber.t] does
    not have). *)
Record Environment : Type := mkEnvironment {
  new_BigNumber : string -> BigNumber.t;
  deserializeIlpPrepare : string -> IlpError + BigNumber.t;
  dataHandler : string -> IlpError + IlpReply;
  chain_fetchChannel : nat -> string -> option PaymentChannel.t
}.

(** The result of [handleData]: the sub-protocols of the response ([None]
    when the promise rejects), the cached incoming channel, the world, and
    whether [claimIfProfitable()] has been added to the incoming queue. *)
Record Handled : Type := mkHandled {
  responses : option (list BtpResponse);
  incoming : option PaymentChannel.t;
  world : World;
  claimRequested : bool
}.

(** [handleData(message)]: the first of [info], [requestClose], [machinomy]
    and [ilp] that the message carries decides, in this order. The reducer
    of a claim runs on the cached incoming channel before the answer; the
    queue then emits [data] (modelled from the spec: after each successful
    reduction), and the listener of the constructor persists the account. *)
Definition handleData `{Externals} (master : EthereumPlugin)
    (env : Environment) (message : list BtpSubProtocol)
    (cachedChannel : option PaymentChannel.t) (w : World) : Handled :=
  match getBtpSubprotocol message "info" with
  | Some info =>
      mkHandled (Some [response_info (_ethereumAddress master)]) cachedChannel
        (linkEthereumAddress (data info) w) false
  | None =>
      match getBtpSubprotocol message "requestClose" with
      | Some requestClose =>
          mkHandled (Some [response_requestClose]) cachedChannel w true
      | None =>
          match getBtpSubprotocol message "machinomy" with
          | Some machinomy =>
              match JSON_parse (data machinomy) with
              | None => mkHandled None cachedChannel w false
              | Some claim =>
                  match hasValidSchema claim with
                  | None => mkHandled None cachedChannel w false
                  | Some None => mkHandled (Some []) cachedChannel w false
                  | Some (Some (value, channelId, signature, contractAddress))
                    =>
                      let validated :=
                        validateClaim master (chain_fetchChannel env)
                          (SerializedClaim.mk (new_BigNumber env value)
                             channelId signature contractAddress)
                          cachedChannel w in
                      mkHandled (Some []) (fst validated)
                        (persistAccountData (snd validated)) false
                  end
              end
          | None =>
              match getBtpSubprotocol message "ilp" with
              | Some ilp =>
                  let handled :=
                    handleData_ilp master
                      (deserializeIlpPrepare env (data ilp))
                      (dataHandler env (data ilp)) w in
                  mkHandled (Some [response_ilp (fst handled)]) cachedChannel
                    (snd handled) false
              | None => mkHandled (Some []) cachedChannel w false
              end
          end
      end
  end.

(** A series of messages, each one handled on the channel and the world
    that the one before has left. *)
Fixpoint handleData_all `{Externals} (master : EthereumPlugin)
    (env : Environment) (messages : list (list BtpSubProtocol))
    (cachedChannel : option PaymentChannel.t) (w : World)
  : option PaymentChannel.t * World :=
  match messages with
  | [] => (cachedChannel, w)
  | message :: rest =>
      let handled := handleData master env message cachedChannel w in
      handleData_all master env rest (incoming handled) (world handled)
  end.

(** ** The accounts of the server plugin: [_getAccount] *)

Section Accounts.

(** [EthereumAccount], as the plugin sees it. *)
Variable Account : Type.

(** [this.ilpAddressToAccount(address)] of mini-accounts. *)
Variable ilpAddressToAccount : string -> string.

(** [new EthereumAccount({ accountName, master, sendMessage })], where
    [sendMessage] calls the peer at [address]. *)
Variable new_EthereumAccount : string -> string -> Account.

(** [_getAccount(address)], with [this._accounts] after the call. *)
Definition _getAccount (address : string) (_accounts : gmap string Account)
  : Account * gmap string Account :=
  let accountName := ilpAddressToAccount address in
  match _accounts !! accountName with
  | Some account => (account, _accounts)
  | None =>
      let account := new_EthereumAccount accountName address in
      (account, <[accountName := account]> _accounts)
  end.

End Accounts.

(** ** More of the concrete setting *)

(** A decimal string, digit by digit. *)
Fixpoint decimal (acc : N) (s : string) : N :=
  match s with
  | EmptyString => acc
  | String c rest => decimal (acc * 10 + (N_of_ascii c - 48)) rest
  end.

(** A chain that answers [before] on the first [k] attempts and [after] from
    then on. *)
Definition exampleChain (k : nat) (before after : option PaymentChannel.t)
  : nat -> string -> option PaymentChannel.t :=
  fun attempts channelId => if Nat.ltb attempts k then before else after.

(** Packets and claims that hold their amount as a decimal string, a data
    handler that rejects the packets of amount 13 and fulfills the others, and
    a chain that knows the channel [exampleChannel 100000000000 0] from the
    third attempt on. *)
Definition exampleEnvironment : Environment := {|
  new_BigNumber := fun s => BigNumber.Int (Z.of_N (decimal 0 s));
  deserializeIlpPrepare := fun s =>
    if String.eqb s "garbage" then inl (OtherError None)
    else inr (BigNumber.Int (Z.of_N (decimal 0 s)));
  dataHandler := fun s =>
    if String.eqb s "13" then inr (IlpReject "F99") else inr IlpFulfill;
  chain_fetchChannel :=
    exampleChain 2 None (Some (exampleChannel 100000000000 0))
|}.

(** The account [carol] with the given balance of receivables (gwei), which
    the store does not hold yet, on an empty store. *)
Definition exampleNewWorld (receivable : Z) : World := {|
  account := {|
    accountName := "carol";
    receivableBalance := BigNumber.Int receivable;
    payableBalance := BigNumber.Int 0;
    payoutAmount := BigNumber.Int 0;
    ethereumAddress := None
  |};
  _store := ∅;
  _store_accounts := ∅;
  watcher := false;
  calls := []
|}.

(** The channel of [exampleChannel], under dispute until block 500. *)
Definition exampleDisputedChannel (value spent : Z) : PaymentChannel.t :=
  PaymentChannel.mk "0x01" addressC addressB addressA (BigNumber.Int value)
    (BigNumber.Int 100) (Some (BigNumber.Int 500)) (BigNumber.Int spent)
    (Some "0xsigned").

(** * Properties *)

(** Case analysis on a test of the goal. *)
Ltac case_test :=
  match goal with
  | |- context [if ?b then _ else _] => destruct b
  end.

(** ** Values of bignumber.js operations *)

Lemma value_plus x y :
  BigNumber.value (BigNumber.plus x y) = BigNumber.value x + BigNumber.value y.
Proof. destruct x, y; simpl; lia. Qed.

Lemma value_minus x y :
  BigNumber.value (BigNumber.minus x y) = BigNumber.value x - BigNumber.value y.
Proof. destruct x as [|a], y as [|[|b|b]]; simpl; lia. Qed.

Lemma value_min x y :
  BigNumber.value (BigNumber.min x y)
  = Z.min (BigNumber.value x) (BigNumber.value y).
Proof.
  unfold BigNumber.min, BigNumber.isGreaterThan.
  destruct (Z.ltb_spec (BigNumber.value y) (BigNumber.value x)); lia.
Qed.

Lemma value_max x y :
  BigNumber.value (BigNumber.max x y)
  = Z.max (BigNumber.value x) (BigNumber.value y).
Proof.
  unfold BigNumber.max, BigNumber.isLessThan.
  destruct (Z.ltb_spec (BigNumber.value x) (BigNumber.value y)); lia.
Qed.

Lemma isPositive_value x :
  BigNumber.isPositive x = true -> 0 <= BigNumber.value x.
Proof. destruct x; simpl; [discriminate | lia]. Qed.

Lemma isPositive_false_value x :
  BigNumber.isPositive x = false -> BigNumber.value x <= 0.
Proof. destruct x; simpl; lia. Qed.

Lemma isPositive_of_pos x :
  0 < BigNumber.value x -> BigNumber.isPositive x = true.
Proof. destruct x; simpl; lia. Qed.

Lemma value_convert_gwei_wei x :
  BigNumber.value (convert_gwei_wei x) = BigNumber.value x * 10 ^ 9.
Proof. destruct x; simpl; lia. Qed.

Lemma value_convert_wei_gwei_dp0 x :
  BigNumber.value (convert_wei_gwei_dp0 x)
  = Z.quot (BigNumber.value x) (10 ^ 9).
Proof.
  destruct x as [|z]; [reflexivity|].
  unfold convert_wei_gwei_dp0, BigNumber.shiftedDown.
  destruct ((z ÷ 10 ^ 9 =? 0) && (z <? 0)) eqn:E; simpl; [|reflexivity].
  apply andb_true_iff in E as [E _]. lia.
Qed.

(** On a non-negative amount rounding towards zero is the floor. *)
Lemma value_convert_wei_gwei_floor x :
  0 <= BigNumber.value x ->
  BigNumber.value (convert_wei_gwei_dp0 x) = BigNumber.value x / 10 ^ 9.
Proof.
  intros H. rewrite value_convert_wei_gwei_dp0.
  apply Z.quot_div_nonneg; lia.
Qed.

(** ** The [ilp] branch of [handleData] *)

Lemma handleData_admit_inr master a w admitted :
  handleData_admit master (inr a) w = inr admitted ->
  BigNumber.value a <= BigNumber.value (_maxPacketAmount master)
  /\ BigNumber.value (receivableBalance (account w)) + BigNumber.value a
     <= BigNumber.value (_maxBalance master)
  /\ admitted
     = set_receivableBalance
         (BigNumber.plus (receivableBalance (account w)) a) w.
Proof.
  unfold handleData_admit, BigNumber.isGreaterThan.
  rewrite value_plus.
  destruct (Z.ltb_spec (BigNumber.value (_maxPacketAmount master))
              (BigNumber.value a)); [discriminate|].
  destruct (Z.ltb_spec (BigNumber.value (_maxBalance master))
              (BigNumber.value (receivableBalance (account w))
               + BigNumber.value a)); [discriminate|].
  intros [= <-]. auto.
Qed.

(** C5, as amended. For every incoming PREPARE whose amount [a] does not
    exceed [maxPacketAmount]: if [receivableBalance + a > maxBalance] the
    packet is rejected with the T04 InsufficientLiquidityError and the
    account is unchanged; if [receivableBalance + a = maxBalance] the packet
    is admitted and [receivableBalance] is [maxBalance] when the packet is
    forwarded. *)
Theorem handleData_maxBalance_boundary master a reply w :
  BigNumber.value a <= BigNumber.value (_maxPacketAmount master) ->
  (BigNumber.value (receivableBalance (account w)) + BigNumber.value a
   > BigNumber.value (_maxBalance master) ->
   handleData_ilp master (inr a) reply w
   = (errorToReject InsufficientLiquidityError, w)
   /\ ilpErrorCode InsufficientLiquidityError = "T04")
  /\ (BigNumber.value (receivableBalance (account w)) + BigNumber.value a
      = BigNumber.value (_maxBalance master) ->
      exists admitted,
        handleData_admit master (inr a) w = inr admitted
        /\ BigNumber.value (receivableBalance (account admitted))
           = BigNumber.value (_maxBalance master)).
Proof.
  intros Hpacket.
  unfold handleData_ilp, handleData_admit, BigNumber.isGreaterThan.
  rewrite value_plus.
  destruct (Z.ltb_spec (BigNumber.value (_maxPacketAmount master))
              (BigNumber.value a)) as [Hlt|_]; [lia|].
  split.
  - intros Hover.
    destruct (Z.ltb_spec (BigNumber.value (_maxBalance master))
                (BigNumber.value (receivableBalance (account w))
                 + BigNumber.value a)); [auto | lia].
  - intros Heq.
    destruct (Z.ltb_spec (BigNumber.value (_maxBalance master))
                (BigNumber.value (receivableBalance (account w))
                 + BigNumber.value a)); [lia|].
    eexists. split; [reflexivity|]. simpl. rewrite value_plus. exact Heq.
Qed.

(** C6. When an admitted PREPARE of amount [a] is answered by a REJECT, the
    reply is passed on and [receivableBalance] is decremented by [a], which
    returns it to its value before the PREPARE was admitted. *)
Theorem handleData_reject_rolls_back master a code w admitted :
  handleData_admit master (inr a) w = inr admitted ->
  fst (handleData_ilp master (inr a) (inr (IlpReject code)) w)
  = response (IlpReject code)
  /\ BigNumber.value
       (receivableBalance
          (account
             (snd (handleData_ilp master (inr a) (inr (IlpReject code)) w))))
     = BigNumber.value (receivableBalance (account admitted))
       - BigNumber.value a
  /\ BigNumber.value
       (receivableBalance
          (account
             (snd (handleData_ilp master (inr a) (inr (IlpReject code)) w))))
     = BigNumber.value (receivableBalance (account w)).
Proof.
  intros Hadmit. unfold handleData_ilp. rewrite Hadmit. simpl.
  apply handleData_admit_inr in Hadmit as (_ & _ & ->). simpl.
  rewrite value_minus, value_plus. repeat split; lia.
Qed.

(** C7. When the data handler (or the decoding of its reply) throws on an
    admitted PREPARE of amount [a], [handleData] answers with a reject built
    from the error and [receivableBalance] stays incremented by [a]. *)
Theorem handleData_throw_keeps_debit master a err w admitted :
  handleData_admit master (inr a) w = inr admitted ->
  handleData_ilp master (inr a) (inl err) w = (errorToReject err, admitted)
  /\ BigNumber.value (receivableBalance (account admitted))
     = BigNumber.value (receivableBalance (account w)) + BigNumber.value a.
Proof.
  intros Hadmit. unfold handleData_ilp. rewrite Hadmit.
  split; [reflexivity|].
  apply handleData_admit_inr in Hadmit as (_ & _ & ->). simpl.
  apply value_plus.
Qed.

(** ** [sendMoney] *)

Lemma calls_not_extended (l : list Call) (c : Call) : l <> l ++ [c].
Proof.
  intros E. apply (f_equal (@List.length Call)) in E.
  rewrite List.length_app in E.
  simpl in E. lia.
Qed.

(** What [sendMoney] does with a cached channel, by its two guards. *)
Lemma sendMoney_cached `{Externals} master amount cached w :
  let amountToSend :=
    match amount with
    | Some a => a
    | None => BigNumber.max (BigNumber.Int 0) (payableBalance (account w))
    end in
  let payout := BigNumber.plus (payoutAmount (account w)) amountToSend in
  let budget := convert_gwei_wei payout in
  let increment := BigNumber.min (remainingInChannel cached) budget in
  let gwei := convert_wei_gwei_dp0 increment in
  let claimed :=
    signClaim master (BigNumber.plus (spentFromChannel cached) increment)
      cached in
  (BigNumber.isPositive (remainingInChannel cached)
   && BigNumber.isPositive budget = false
   /\ sendMoney master amount (Some cached) w
      = (Some cached, set_payoutAmount payout w))
  \/ (BigNumber.isPositive (remainingInChannel cached) = true
      /\ BigNumber.isPositive budget = true
      /\ sendMoney master amount (Some cached) w
         = (Some claimed,
            set_payoutAmount
              (BigNumber.min (BigNumber.Int 0) (BigNumber.minus payout gwei))
              (set_payableBalance
                 (BigNumber.minus (payableBalance (account w)) gwei)
                 (call (sendClaim claimed) (set_payoutAmount payout w))))).
Proof.
  intros amountToSend payout budget increment gwei claimed.
  unfold sendMoney. fold amountToSend. fold payout. simpl.
  fold budget.
  destruct (BigNumber.isPositive (remainingInChannel cached)); simpl;
    [|left; auto].
  destruct (BigNumber.isPositive budget); simpl; [|left; auto].
  right. auto.
Qed.

Lemma value_payout_increased (amount : option BigNumber.t) (w : World) :
  BigNumber.value
    (BigNumber.plus (payoutAmount (account w))
       match amount with
       | Some a => a
       | None => BigNumber.max (BigNumber.Int 0) (payableBalance (account w))
       end)
  = BigNumber.value (payoutAmount (account w))
    + match amount with
      | Some a => BigNumber.value a
      | None => Z.max 0 (BigNumber.value (payableBalance (account w)))
      end.
Proof.
  rewrite value_plus. destruct amount; [reflexivity|]. now rewrite value_max.
Qed.

Lemma sendMoney_guards_value `{Externals} cached (payout : BigNumber.t) :
  BigNumber.isPositive (remainingInChannel cached) = true ->
  BigNumber.isPositive (convert_gwei_wei payout) = true ->
  let increment :=
    Z.min
      (BigNumber.value (PaymentChannel.value cached)
       - BigNumber.value (PaymentChannel.spent cached))
      (BigNumber.value payout * 10 ^ 9) in
  BigNumber.value
    (BigNumber.min (remainingInChannel cached) (convert_gwei_wei payout))
  = increment
  /\ 0 <= increment.
Proof.
  intros Hremaining Hbudget increment.
  apply isPositive_value in Hremaining, Hbudget.
  rewrite value_min. unfold remainingInChannel in *.
  rewrite value_minus in *. rewrite value_convert_gwei_wei in *.
  subst increment. split; lia.
Qed.

(** C3. In every [sendMoney] reduction that sends a claim, the claim is for
    the old [spent] plus [increment_wei = min(value - spent, payoutAmount in
    wei)], where [payoutAmount] has first been increased by the given amount,
    or by [max(0, payableBalance)] when no amount is given; then
    [payableBalance] is decreased by [increment_gwei = floor(increment_wei /
    10^9)] and [payoutAmount] is set to [min(0, payoutAmount -
    increment_gwei)]. *)
Theorem sendMoney_balance_update `{Externals} master amount cachedChannel w
    claimed :
  calls (snd (sendMoney master amount cachedChannel w))
  = calls w ++ [sendClaim claimed] ->
  let amountToSend :=
    match amount with
    | Some a => BigNumber.value a
    | None => Z.max 0 (BigNumber.value (payableBalance (account w)))
    end in
  let payout := BigNumber.value (payoutAmount (account w)) + amountToSend in
  exists cached,
    cachedChannel = Some cached
    /\ let increment_wei :=
         Z.min
           (BigNumber.value (PaymentChannel.value cached)
            - BigNumber.value (PaymentChannel.spent cached))
           (payout * 10 ^ 9) in
       let increment_gwei := increment_wei / 10 ^ 9 in
       let after := account (snd (sendMoney master amount cachedChannel w)) in
       BigNumber.value (PaymentChannel.spent claimed)
       = BigNumber.value (PaymentChannel.spent cached) + increment_wei
       /\ BigNumber.value (payableBalance after)
          = BigNumber.value (payableBalance (account w)) - increment_gwei
       /\ BigNumber.value (payoutAmount after)
          = Z.min 0 (payout - increment_gwei).
Proof.
  intros Hsent amountToSend payout.
  destruct cachedChannel as [cached|].
  2:{ simpl in Hsent. now apply calls_not_extended in Hsent. }
  exists cached. split; [reflexivity|].
  destruct (sendMoney_cached master amount cached w)
    as [[_ E]|(Hremaining & Hbudget & E)]; rewrite E in *; clear E.
  { simpl in Hsent. now apply calls_not_extended in Hsent. }
  simpl in Hsent. apply app_inv_head in Hsent. injection Hsent as <-.
  destruct (sendMoney_guards_value cached _ Hremaining Hbudget)
    as [Hincrement Hnonneg].
  remember
    (BigNumber.plus (payoutAmount (account w))
       match amount with
       | Some a => a
       | None => BigNumber.max (BigNumber.Int 0) (payableBalance (account w))
       end) as P eqn:HP.
  assert (Hpayout : BigNumber.value P = payout).
  { subst P. apply value_payout_increased. }
  remember (BigNumber.min (remainingInChannel cached) (convert_gwei_wei P))
    as increment eqn:Hinc.
  rewrite Hpayout in Hincrement, Hnonneg.
  cbn zeta. simpl. unfold spentFromChannel.
  rewrite value_plus, value_min, !value_minus.
  rewrite value_convert_wei_gwei_floor by (rewrite Hincrement; exact Hnonneg).
  rewrite Hincrement, Hpayout. simpl. auto.
Qed.

(** C8. A [sendMoney] reduction keeps [0 <= spent <= value] on the outgoing
    channel, and changes [spent] only by the claim it sends. When a guard
    fails ([value - spent] or the settlement budget is not positive), no
    claim is sent and the channel stays the cached one. When both guards
    pass, [value - spent] and the settlement budget are non-negative, a
    claim is sent for the channel that is returned, and its [spent] is the
    old [spent] plus [min(value - spent, settlement budget)], which does not
    exceed the escrowed [value]. *)
Theorem sendMoney_spent_within_value `{Externals} master amount cached w :
  let remaining :=
    BigNumber.value (PaymentChannel.value cached)
    - BigNumber.value (PaymentChannel.spent cached) in
  let budget :=
    (BigNumber.value (payoutAmount (account w))
     + match amount with
       | Some a => BigNumber.value a
       | None => Z.max 0 (BigNumber.value (payableBalance (account w)))
       end) * 10 ^ 9 in
  let result := sendMoney master amount (Some cached) w in
  exists next,
    fst result = Some next
    /\ PaymentChannel.value next = PaymentChannel.value cached
    /\ (((remaining <= 0 \/ budget <= 0)
         /\ next = cached
         /\ calls (snd result) = calls w)
        \/ (0 <= remaining /\ 0 <= budget
            /\ calls (snd result) = calls w ++ [sendClaim next]
            /\ BigNumber.value (PaymentChannel.spent next)
               = BigNumber.value (PaymentChannel.spent cached)
                 + Z.min remaining budget
            /\ BigNumber.value (PaymentChannel.spent cached)
               <= BigNumber.value (PaymentChannel.spent next)
               <= BigNumber.value (PaymentChannel.value next)))
    /\ (0 <= BigNumber.value (PaymentChannel.spent cached)
          <= BigNumber.value (PaymentChannel.value cached) ->
        0 <= BigNumber.value (PaymentChannel.spent next)
          <= BigNumber.value (PaymentChannel.value next)).
Proof.
  intros remaining budget result. subst result.
  destruct (sendMoney_cached master amount cached w)
    as [[Hguard E]|(Hremaining & Hbudget & E)]; rewrite E; clear E.
  { exists cached. split; [reflexivity|]. split; [reflexivity|].
    split; [|auto]. left. split; [|split; reflexivity].
    apply andb_false_iff in Hguard as [Hguard|Hguard];
      apply isPositive_false_value in Hguard.
    - left. unfold remainingInChannel in Hguard.
      rewrite value_minus in Hguard. exact Hguard.
    - right. rewrite value_convert_gwei_wei, value_payout_increased in Hguard.
      exact Hguard. }
  eexists. split; [reflexivity|].
  destruct (sendMoney_guards_value cached _ Hremaining Hbudget)
    as [Hincrement Hnonneg].
  apply isPositive_value in Hremaining, Hbudget.
  unfold remainingInChannel in Hremaining.
  rewrite value_minus in Hremaining.
  rewrite value_convert_gwei_wei in Hbudget.
  rewrite value_payout_increased in Hincrement, Hnonneg, Hbudget.
  fold remaining in Hremaining, Hincrement, Hnonneg.
  fold budget in Hbudget, Hincrement, Hnonneg.
  split; [reflexivity|].
  assert (Hspent :
    BigNumber.value
      (PaymentChannel.spent
         (signClaim master
            (BigNumber.plus (spentFromChannel cached)
               (BigNumber.min (remainingInChannel cached)
                  (convert_gwei_wei
                     (BigNumber.plus (payoutAmount (account w))
                        match amount with
                        | Some a => a
                        | None =>
                            BigNumber.max (BigNumber.Int 0)
                              (payableBalance (account w))
                        end))))
            cached))
    = BigNumber.value (PaymentChannel.spent cached) + Z.min remaining budget).
  { simpl. rewrite value_plus, Hincrement. reflexivity. }
  split.
  - right. rewrite Hspent. simpl PaymentChannel.value.
    split; [exact Hremaining|]. split; [exact Hbudget|].
    split; [reflexivity|]. split; [reflexivity|].
    subst remaining. lia.
  - intros Hinv. rewrite Hspent. simpl PaymentChannel.value.
    subst remaining. lia.
Qed.

(** C2, the defect. The guards on [remainingInChannel] and on the settlement
    budget use [isPositive], which [+0] passes since its sign is positive.
    With nothing owed ([payableBalance = payoutAmount = 0]), [sendMoney()]
    signs and sends a claim for the [spent] that the channel already has;
    and so it does with 5 gwei owed on a channel whose escrow is spent
    ([value = spent]). *)
Theorem sendMoney_repeats_spent :
  (let result :=
     sendMoney (H := exampleExternals) exampleMaster None
       (Some (exampleChannel 100000000000 10000000000)) (exampleWorld 0 0 0) in
   fst result = Some (exampleChannel 100000000000 10000000000)
   /\ calls (snd result)
      = [sendClaim (exampleChannel 100000000000 10000000000)])
  /\ (let result :=
        sendMoney (H := exampleExternals) exampleMaster None
          (Some (exampleChannel 10000000000 10000000000))
          (exampleWorld 0 5 0) in
      fst result = Some (exampleChannel 10000000000 10000000000)
      /\ calls (snd result)
         = [sendClaim (exampleChannel 10000000000 10000000000)]).
Proof. vm_compute. repeat split; reflexivity. Qed.

(** Behind guards that hold strictly, the claim is for more than the cached
    [spent]. *)
Lemma sendMoney_spent_increases `{Externals} master amount cached w :
  0 < BigNumber.value (remainingInChannel cached) ->
  0 < BigNumber.value (payoutAmount
                         (account (snd (sendMoney master amount None w)))) ->
  exists next,
    sendMoney master amount (Some cached) w
    = (Some next, snd (sendMoney master amount (Some cached) w))
    /\ BigNumber.value (PaymentChannel.spent cached)
       < BigNumber.value (PaymentChannel.spent next)
    /\ calls (snd (sendMoney master amount (Some cached) w))
       = calls w ++ [sendClaim next].
Proof.
  intros Hremaining Hpayout. simpl in Hpayout.
  destruct (sendMoney_cached master amount cached w)
    as [[Hguard _]|(Hr & Hb & E)].
  { apply andb_false_iff in Hguard as [Hguard|Hguard];
      apply isPositive_false_value in Hguard;
      rewrite ?value_convert_gwei_wei in Hguard; lia. }
  rewrite E. eexists. split; [reflexivity|].
  destruct (sendMoney_guards_value cached _ Hr Hb) as [Hincrement _].
  unfold remainingInChannel in Hremaining. rewrite value_minus in Hremaining.
  simpl. rewrite value_plus, Hincrement. unfold spentFromChannel.
  split; [lia | reflexivity].
Qed.

(** ** [validateClaim] *)

Lemma validateClaim_credit_store claim cachedChannel updated w :
  _store (snd (validateClaim_credit claim cachedChannel updated w)) = _store w.
Proof.
  unfold validateClaim_credit.
  destruct (BigNumber.isPositive _), cachedChannel; simpl;
    repeat case_test; reflexivity.
Qed.

(** The accounting of a claim: [receivableBalance] goes down by the whole
    gwei of a positive increment, and the money handler is called whenever
    the increment passes [isPositive]. *)
Lemma validateClaim_credit_receivable claim cachedChannel updated w :
  let increment :=
    Z.min (BigNumber.value (SerializedClaim.value claim))
      (BigNumber.value (PaymentChannel.value updated))
    - match cachedChannel with
      | Some cached => BigNumber.value (PaymentChannel.spent cached)
      | None => 0
      end in
  BigNumber.value
    (receivableBalance
       (account (snd (validateClaim_credit claim cachedChannel updated w))))
  = BigNumber.value (receivableBalance (account w))
    - Z.max 0 increment / 10 ^ 9.
Proof.
  intros increment. unfold validateClaim_credit.
  remember
    (BigNumber.minus
       (BigNumber.min (SerializedClaim.value claim)
          (PaymentChannel.value updated))
       match cachedChannel with
       | Some cached => PaymentChannel.spent cached
       | None => BigNumber.Int 0
       end) as claimIncrement eqn:Hinc.
  assert (Hvalue : BigNumber.value claimIncrement = increment).
  { subst. rewrite value_minus, value_min. unfold increment.
    now destruct cachedChannel. }
  destruct (BigNumber.isPositive claimIncrement) eqn:Hpositive.
  - apply isPositive_value in Hpositive.
    assert (Hcredited :
      BigNumber.value
        (BigNumber.minus (receivableBalance (account w))
           (convert_wei_gwei_dp0 claimIncrement))
      = BigNumber.value (receivableBalance (account w))
        - Z.max 0 increment / 10 ^ 9).
    { rewrite value_minus, value_convert_wei_gwei_floor by exact Hpositive.
      rewrite Hvalue in *. now rewrite Z.max_r by lia. }
    destruct cachedChannel; simpl; destruct (watcher w); simpl;
      exact Hcredited.
  - apply isPositive_false_value in Hpositive. rewrite Hvalue in Hpositive.
    rewrite Z.max_l by lia. rewrite Z.div_0_l by lia.
    destruct cachedChannel; simpl; try destruct (watcher w); simpl; lia.
Qed.

(** A first claim is dropped with the world as it was, or it is credited
    after the channel has been linked, which needs a free key. *)
Lemma validateClaim_attempts_new `{Externals} remaining master fetchChannel
    claim w :
  validateClaim_attempts remaining master fetchChannel claim None w = (None, w)
  \/ (_store w !! channelKey claim = None
      /\ exists updated,
           validateClaim_attempts remaining master fetchChannel claim None w
           = validateClaim_credit claim None updated
               (store_set (channelKey claim) (accountName (account w)) w)).
Proof.
  induction remaining as [|remaining IH]; simpl; [now left|].
  destruct (fetchChannel (20 - remaining)%nat (SerializedClaim.channelId claim))
    as [updated|]; [|exact IH].
  repeat (case_test; try (now left)).
  right. eauto.
Qed.

(** A claim on a linked channel never touches the channel links of the
    store. *)
Lemma validateClaim_attempts_cached_store `{Externals} remaining master
    fetchChannel claim cached w :
  _store
    (snd
       (validateClaim_attempts remaining master fetchChannel claim
          (Some cached) w))
  = _store w.
Proof.
  induction remaining as [|remaining IH]; simpl; [reflexivity|].
  destruct (if BigNumber.isGreaterThan _ _ then _ else _) as [updated|];
    [|reflexivity].
  repeat (case_test; try reflexivity); try exact IH.
  apply validateClaim_credit_store.
Qed.

(** C4. The store key [<channelId>:incoming-channel] is linked once:
    [validateClaim] leaves the channel links of the store as they are, or
    (for a channel that is not cached yet, and a key that was absent) adds
    the key with its own
    [accountName]; no key that is present changes; and a first claim on a
    channel whose key is present is rejected with nothing changed. *)
Theorem validateClaim_links_channel_once `{Externals} master fetchChannel
    claim cachedChannel w :
  let result := validateClaim master fetchChannel claim cachedChannel w in
  (_store (snd result) = _store w
   \/ (cachedChannel = None
       /\ _store w !! channelKey claim = None
       /\ _store (snd result)
          = <[channelKey claim := accountName (account w)]> (_store w)))
  /\ (forall key linkedAccount,
        _store w !! key = Some linkedAccount ->
        _store (snd result) !! key = Some linkedAccount)
  /\ (forall linkedAccount,
        cachedChannel = None ->
        _store w !! channelKey claim = Some linkedAccount ->
        result = (None, w)).
Proof.
  intros result.
  assert (Hstore :
    _store (snd result) = _store w
    \/ (cachedChannel = None
        /\ _store w !! channelKey claim = None
        /\ _store (snd result)
           = <[channelKey claim := accountName (account w)]> (_store w))).
  { subst result. unfold validateClaim.
    destruct cachedChannel as [cached|].
    - left. apply validateClaim_attempts_cached_store.
    - destruct (validateClaim_attempts_new 21 master fetchChannel claim w)
        as [->|(Hfree & updated & ->)]; [now left|].
      right. rewrite validateClaim_credit_store. auto. }
  split; [exact Hstore|]. split.
  - intros key linkedAccount Hkey.
    destruct Hstore as [->|(_ & Hfree & ->)]; [exact Hkey|].
    rewrite lookup_insert_ne; [exact Hkey|].
    intros <-. congruence.
  - intros linkedAccount -> Hkey. subst result. unfold validateClaim.
    destruct (validateClaim_attempts_new 21 master fetchChannel claim w)
      as [->|(Hfree & _)]; [reflexivity | congruence].
Qed.

(** C1, the defect. A claim increment of zero passes [isPositive], since the
    sign of [+0] is positive, and the money handler is called with [0]: on
    a first claim of value 0, and on the replay of a claim for [10^10] wei
    that has been accepted. *)
Theorem validateClaim_zero_increment_calls_moneyHandler :
  calls
    (snd
       (validateClaim (H := exampleExternals) exampleMaster
          (fun attempts channelId => Some (exampleChannel 100000000000 0))
          (exampleClaim 0) None (exampleWorld 5 0 0)))
  = [moneyHandler (BigNumber.Int 0)]
  /\ calls
       (snd
          (validateClaim (H := exampleExternals) exampleMaster
             (fun attempts channelId => Some (exampleChannel 100000000000 0))
             (exampleClaim 10000000000)
             (Some (exampleChannel 100000000000 10000000000))
             (exampleWorld 5 0 0)))
     = [moneyHandler (BigNumber.Int 0)].
Proof. split; vm_compute; reflexivity. Qed.

Lemma lastCharacter_append (c c' : ascii) (s t : string) :
  lastCharacter c (s +:+ String c' t) = lastCharacter c' t.
Proof.
  revert c. induction s as [|a s IH]; intros c; simpl; [reflexivity|].
  apply IH.
Qed.

(** The two kinds of store keys are apart: no channel key is the key of an
    account, so that the write of an account never touches a channel link,
    and [_store.get(channelKey)] never finds an account. *)
Lemma channelKey_accountKey (claim : SerializedClaim.t) (name : string) :
  channelKey claim <> accountKey name.
Proof.
  unfold channelKey, accountKey. intros E.
  apply (f_equal (lastCharacter "x")) in E.
  rewrite !lastCharacter_append in E. simpl in E. discriminate E.
Qed.

(** ** [linkEthereumAddress] *)

Lemma linkEthereumAddress_linked `{Externals} info_data w :
  truthy (ethereumAddress (account w)) = true ->
  linkEthereumAddress info_data w = w.
Proof.
  intros Hlinked. unfold linkEthereumAddress. rewrite Hlinked.
  repeat case_match; reflexivity.
Qed.

(** C9. Once an address is linked to the account, no [info] message changes
    it, whatever address the message carries (another one, the same one, an
    invalid one or none), and so for every series of messages; a message
    without a valid address changes no account; and when a message does
    change the address, none was linked before and the new one is the valid
    address of the message. *)
Theorem linkEthereumAddress_never_rebinds `{Externals} (infos : list string)
    (info_data : string) (w : World) :
  (truthy (ethereumAddress (account w)) = true ->
   linkEthereumAddress info_data w = w /\ linkEthereumAddresses infos w = w)
  /\ (info_ethereumAddress info_data = None ->
      linkEthereumAddress info_data w = w)
  /\ (ethereumAddress (account (linkEthereumAddress info_data w))
      <> ethereumAddress (account w) ->
      truthy (ethereumAddress (account w)) = false
      /\ exists address,
           info_ethereumAddress info_data = Some address
           /\ linkEthereumAddress info_data w = set_ethereumAddress address w).
Proof.
  split; [|split].
  - intros Hlinked. split; [now apply linkEthereumAddress_linked|].
    unfold linkEthereumAddresses.
    induction infos as [|info infos IH]; simpl; [reflexivity|].
    now rewrite linkEthereumAddress_linked.
  - unfold info_ethereumAddress, linkEthereumAddress.
    destruct (JSON_parse info_data) as [[| | | | |fields]|]; simpl;
      try reflexivity.
    destruct (lookup_field "ethereumAddress" fields) as [[| | |address| |]|];
      try reflexivity.
    destruct (isAddress address); [discriminate | reflexivity].
  - intros Hchanged.
    destruct (truthy (ethereumAddress (account w))) eqn:Hlinked.
    { rewrite linkEthereumAddress_linked in Hchanged by exact Hlinked.
      now contradict Hchanged. }
    split; [reflexivity|].
    revert Hchanged. unfold info_ethereumAddress, linkEthereumAddress.
    rewrite Hlinked.
    destruct (JSON_parse info_data) as [[| | | | |fields]|]; simpl;
      try congruence.
    destruct (lookup_field "ethereumAddress" fields) as [[| | |address| |]|];
      try congruence.
    destruct (isAddress address); simpl; [eauto | congruence].
Qed.

(** ** [claimIfProfitable] *)

(** C10, as amended. When no [authorize] callback is given and the estimated
    fee is greater than or equal to [spent], the claim transaction is not
    submitted (no call leaves the account) and the reducer returns the
    channel as [updateChannel] has refreshed it from the chain. *)
Theorem claimIfProfitable_unprofitable `{Externals} requireDisputed
    updateChannel txFee confirmed fetchChannel cached updated w :
  truthy (PaymentChannel.signature cached) = true ->
  updateChannel cached = Some updated ->
  BigNumber.value (PaymentChannel.spent updated) <= BigNumber.value txFee ->
  claimIfProfitable requireDisputed None updateChannel txFee confirmed
    fetchChannel (Some cached) w
  = (resolved (Some updated), w).
Proof.
  intros Hsigned Hupdated Hfee. unfold claimIfProfitable.
  rewrite Hsigned, Hupdated. simpl.
  destruct (requireDisputed && negb (isDisputed updated)); [reflexivity|].
  unfold BigNumber.isGreaterThanOrEqualTo.
  destruct (Z.leb_spec (BigNumber.value (PaymentChannel.spent updated))
              (BigNumber.value txFee)); [reflexivity | lia].
Qed.

(** ** Examples *)

(** C5 as stated fails on a PREPARE above both limits: with
    [receivableBalance = 0], [maxBalance = 1000] and [maxPacketAmount =
    1000], a PREPARE of 2000 has [receivableBalance + a > maxBalance], and
    is rejected with the F08 AmountTooLargeError, not with T04. *)
Lemma handleData_over_both_limits_is_F08 :
  BigNumber.value (receivableBalance (account (exampleWorld 0 0 0)))
  + BigNumber.value (BigNumber.Int 2000)
  > BigNumber.value (_maxBalance exampleMaster)
  /\ handleData_ilp exampleMaster (inr (BigNumber.Int 2000)) (inl (OtherError None))
       (exampleWorld 0 0 0)
     = (errorToReject
          (AmountTooLargeError (BigNumber.Int 2000) (BigNumber.Int 1000)),
        exampleWorld 0 0 0)
  /\ ilpErrorCode
       (AmountTooLargeError (BigNumber.Int 2000) (BigNumber.Int 1000))
     = "F08"
  /\ handleData_ilp exampleMaster (inr (BigNumber.Int 2000)) (inl (OtherError None))
       (exampleWorld 0 0 0)
     <> (errorToReject InsufficientLiquidityError, exampleWorld 0 0 0).
Proof.
  split; [reflexivity|]. split; [reflexivity|]. split; [reflexivity|].
  vm_compute. intros E. discriminate E.
Qed.

(** C10 as stated fails when the chain has changed: with [spent = 100000]
    wei, a fee of 200000 wei and no [authorize] callback, the channel that
    the queue caches after the reduction is the refreshed one, which holds
    the deposit that the chain reports. *)
Lemma claimIfProfitable_unprofitable_refreshes_cache :
  BigNumber.isGreaterThanOrEqualTo (BigNumber.Int 200000)
    (PaymentChannel.spent (exampleChannel 1000000 100000)) = true
  /\ reduce (Some (exampleChannel 1000000 100000))
       (fst
          (claimIfProfitable (H := exampleExternals) false None exampleDeposit
             (BigNumber.Int 200000) true (fun attempts channelId => None)
             (Some (exampleChannel 1000000 100000)) (exampleWorld 0 0 0)))
     = Some (exampleChannel 1001000 100000)
  /\ reduce (Some (exampleChannel 1000000 100000))
       (fst
          (claimIfProfitable (H := exampleExternals) false None exampleDeposit
             (BigNumber.Int 200000) true (fun attempts channelId => None)
             (Some (exampleChannel 1000000 100000)) (exampleWorld 0 0 0)))
     <> Some (exampleChannel 1000000 100000).
Proof.
  split; [reflexivity|]. split; [reflexivity|].
  vm_compute. intros E. discriminate E.
Qed.

(** A PREPARE of 600 on a balance of 400 reaches [maxBalance = 1000] and is
    admitted. *)
Lemma handleData_maxBalance_boundary_witness :
  exists admitted,
    handleData_admit exampleMaster (inr (BigNumber.Int 600))
      (exampleWorld 400 0 0) = inr admitted
    /\ BigNumber.value (receivableBalance (account admitted))
       = BigNumber.value (_maxBalance exampleMaster).
Proof.
  destruct (handleData_maxBalance_boundary exampleMaster (BigNumber.Int 600)
              (inl (OtherError None)) (exampleWorld 400 0 0)) as [_ Hadmitted].
  - simpl. lia.
  - apply Hadmitted. reflexivity.
Defined.

(** A PREPARE of 600 on a balance of 0 that is answered by a REJECT leaves a
    balance of 0. *)
Lemma handleData_reject_rolls_back_witness :
  BigNumber.value
    (receivableBalance
       (account
          (snd
             (handleData_ilp exampleMaster (inr (BigNumber.Int 600))
                (inr (IlpReject "F99")) (exampleWorld 0 0 0)))))
  = BigNumber.value (receivableBalance (account (exampleWorld 0 0 0))).
Proof.
  apply (handleData_reject_rolls_back exampleMaster (BigNumber.Int 600) "F99"
           (exampleWorld 0 0 0) (exampleWorld 600 0 0)).
  reflexivity.
Defined.

(** A PREPARE of 600 on a balance of 0 whose data handler throws leaves a
    balance of 600. *)
Lemma handleData_throw_keeps_debit_witness :
  handleData_ilp exampleMaster (inr (BigNumber.Int 600))
    (inl (OtherError None)) (exampleWorld 0 0 0)
  = (errorToReject (OtherError None), exampleWorld 600 0 0).
Proof.
  apply (handleData_throw_keeps_debit exampleMaster (BigNumber.Int 600)
           (OtherError None) (exampleWorld 0 0 0) (exampleWorld 600 0 0)).
  reflexivity.
Defined.

(** With 5 gwei owed and a fresh channel of [10^11] wei, [sendMoney()]
    claims [5 * 10^9] wei and [payableBalance] goes from 5 to 0. *)
Lemma sendMoney_balance_update_witness :
  BigNumber.value
    (payableBalance
       (account
          (snd
             (sendMoney (H := exampleExternals) exampleMaster None
                (Some (exampleChannel 100000000000 0)) (exampleWorld 0 5 0)))))
  = 5 - Z.min (100000000000 - 0) ((0 + Z.max 0 5) * 10 ^ 9) / 10 ^ 9.
Proof.
  destruct (sendMoney_balance_update (H := exampleExternals) exampleMaster
              None (Some (exampleChannel 100000000000 0)) (exampleWorld 0 5 0)
              (exampleChannel 100000000000 5000000000))
    as (cached & Hcached & _ & Hpayable & _).
  - reflexivity.
  - injection Hcached as <-. exact Hpayable.
Defined.

(** A channel of 100 wei with 40 spent and a budget of 5 gwei: a claim is
    sent, and it is for the whole escrow, [spent = 40 + min(60, 5 * 10^9) =
    100 = value]. *)
Lemma sendMoney_spent_within_value_witness :
  exists next,
    fst
      (sendMoney (H := exampleExternals) exampleMaster None
         (Some (exampleChannel 100 40)) (exampleWorld 0 5 0)) = Some next
    /\ calls
         (snd
            (sendMoney (H := exampleExternals) exampleMaster None
               (Some (exampleChannel 100 40)) (exampleWorld 0 5 0)))
       = [sendClaim next]
    /\ BigNumber.value (PaymentChannel.spent next) = 100
    /\ 0 <= BigNumber.value (PaymentChannel.spent next)
         <= BigNumber.value (PaymentChannel.value next).
Proof.
  destruct (sendMoney_spent_within_value (H := exampleExternals) exampleMaster
              None (exampleChannel 100 40) (exampleWorld 0 5 0))
    as (next & Hnext & _ & [([Hguard|Hguard] & _)|Hsent] & Hinv).
  - simpl in Hguard. lia.
  - simpl in Hguard. lia.
  - destruct Hsent as (_ & _ & Hcalls & Hspent & _).
    exists next. split; [exact Hnext|]. split; [exact Hcalls|].
    split; [exact Hspent|]. apply Hinv. simpl. lia.
Defined.

(** The channel [0x01] is linked to [alice]; the first claim of [bob] on it
    is rejected and the store keeps the link. *)
Lemma validateClaim_links_channel_once_witness :
  validateClaim (H := exampleExternals) exampleMaster
    (fun attempts channelId => Some (exampleChannel 100 0)) (exampleClaim 10)
    None exampleWorldBob
  = (None, exampleWorldBob).
Proof.
  pose proof (validateClaim_links_channel_once (H := exampleExternals)
                exampleMaster
                (fun attempts channelId => Some (exampleChannel 100 0))
                (exampleClaim 10) None exampleWorldBob) as Honce.
  cbv zeta in Honce. destruct Honce as (_ & _ & Hrejected).
  apply (Hrejected "alice"); reflexivity.
Defined.

(** An account linked to [addressB] receives an [info] message for
    [addressA]: nothing changes. *)
Lemma linkEthereumAddress_never_rebinds_witness :
  linkEthereumAddress (H := exampleExternals) addressA
    (set_ethereumAddress addressB (exampleWorld 0 0 0))
  = set_ethereumAddress addressB (exampleWorld 0 0 0).
Proof.
  destruct (linkEthereumAddress_never_rebinds (H := exampleExternals)
              [addressA; addressC] addressA
              (set_ethereumAddress addressB (exampleWorld 0 0 0)))
    as (Hlinked & _).
  apply Hlinked. reflexivity.
Defined.

(** [spent = 100000] wei, a fee of 200000 wei, no [authorize] callback and a
    chain that reports the channel as it is cached: no transaction, and the
    same channel. *)
Lemma claimIfProfitable_unprofitable_witness :
  claimIfProfitable (H := exampleExternals) false None Some
    (BigNumber.Int 200000) true (fun attempts channelId => None)
    (Some (exampleChannel 1000000 100000)) (exampleWorld 0 0 0)
  = (resolved (Some (exampleChannel 1000000 100000)), exampleWorld 0 0 0).
Proof.
  apply (claimIfProfitable_unprofitable (H := exampleExternals)).
  - reflexivity.
  - reflexivity.
  - simpl. lia.
Defined.

(** * More of the account *)

(** ** The [ilp] branch, packet by packet *)

(** Persisting the account twice is persisting it once. *)
Lemma persistAccountData_again (name : string) (accounts : gset string) :
  {[ name ]} ∪ ({[ name ]} ∪ accounts) = {[ name ]} ∪ accounts.
Proof. apply set_eq. intros x. rewrite !elem_of_union. tauto. Qed.

Lemma set_receivableBalance_again balance balance' w :
  set_receivableBalance balance' (set_receivableBalance balance w)
  = set_receivableBalance balance' w.
Proof.
  destruct w as [acct store accounts timer sent].
  unfold set_receivableBalance, persistAccountData. simpl.
  now rewrite persistAccountData_again.
Qed.

(** The branch leaves the world as it is, or assigns the balance of
    receivables and nothing else. *)
Lemma handleData_ilp_frame master prepare reply w :
  snd (handleData_ilp master prepare reply w) = w
  \/ exists balance,
       snd (handleData_ilp master prepare reply w)
       = set_receivableBalance balance w.
Proof.
  unfold handleData_ilp, handleData_admit.
  destruct prepare as [err|a]; [now left|].
  repeat case_test; simpl; try (now left);
    destruct reply as [err|[|code]]; simpl; right;
    rewrite ?set_receivableBalance_again; eexists; reflexivity.
Qed.

(** The balance after a PREPARE of amount [a]: the packet is debited when it
    is within [maxPacketAmount] and [maxBalance] and the data handler does
    not answer with a REJECT (it fulfills, or it throws); the balance is the
    old one otherwise. Of the account nothing but the balance changes; the
    channel links of the store, the watcher and the calls stay as they are.
    The account is written to the store under its own key when the packet
    is admitted (the assignment of the balance persists it), and not
    otherwise. *)
Theorem handleData_ilp_balance master a reply w :
  let old := BigNumber.value (receivableBalance (account w)) in
  let after := snd (handleData_ilp master (inr a) reply w) in
  let admitted :=
    (BigNumber.value a <=? BigNumber.value (_maxPacketAmount master))
    && (old + BigNumber.value a <=? BigNumber.value (_maxBalance master)) in
  BigNumber.value (receivableBalance (account after))
  = (if admitted
        && negb match reply with
                | inr (IlpReject _) => true
                | _ => false
                end
     then old + BigNumber.value a
     else old)
  /\ accountName (account after) = accountName (account w)
  /\ payableBalance (account after) = payableBalance (account w)
  /\ payoutAmount (account after) = payoutAmount (account w)
  /\ ethereumAddress (account after) = ethereumAddress (account w)
  /\ _store after = _store w
  /\ _store_accounts after
     = (if admitted
        then {[ accountName (account w) ]} ∪ _store_accounts w
        else _store_accounts w)
  /\ watcher after = watcher w
  /\ calls after = calls w.
Proof.
  intros old after admitted. subst old after admitted.
  unfold handleData_ilp, handleData_admit, BigNumber.isGreaterThan.
  rewrite value_plus.
  destruct (Z.ltb_spec (BigNumber.value (_maxPacketAmount master))
              (BigNumber.value a)) as [Hpacket|Hpacket];
    destruct (Z.leb_spec (BigNumber.value a)
                (BigNumber.value (_maxPacketAmount master)));
    try lia; simpl; [repeat split; reflexivity|].
  destruct (Z.ltb_spec (BigNumber.value (_maxBalance master))
              (BigNumber.value (receivableBalance (account w))
               + BigNumber.value a)) as [Hbalance|Hbalance];
    destruct (Z.leb_spec
                (BigNumber.value (receivableBalance (account w))
                 + BigNumber.value a)
                (BigNumber.value (_maxBalance master)));
    try lia; simpl; [repeat split; reflexivity|].
  destruct reply as [err|[|code]]; simpl;
    rewrite ?value_minus, ?value_plus, ?persistAccountData_again;
    repeat split; try reflexivity; lia.
Qed.

(** A PREPARE above [maxPacketAmount] is rejected with the F08
    AmountTooLargeError, which carries the amount received and the maximum,
    and the account is unchanged; a PREPARE of [maxPacketAmount] exactly is
    admitted when the balance has room for it. *)
Theorem handleData_maxPacketAmount_boundary master a reply w :
  (BigNumber.value a > BigNumber.value (_maxPacketAmount master) ->
   handleData_ilp master (inr a) reply w
   = (errorToReject (AmountTooLargeError a (_maxPacketAmount master)), w)
   /\ ilpErrorCode (AmountTooLargeError a (_maxPacketAmount master)) = "F08")
  /\ (BigNumber.value a = BigNumber.value (_maxPacketAmount master) ->
      BigNumber.value (receivableBalance (account w)) + BigNumber.value a
      <= BigNumber.value (_maxBalance master) ->
      exists admitted, handleData_admit master (inr a) w = inr admitted).
Proof.
  unfold handleData_ilp, handleData_admit, BigNumber.isGreaterThan.
  rewrite value_plus. split.
  - intros Hover.
    destruct (Z.ltb_spec (BigNumber.value (_maxPacketAmount master))
                (BigNumber.value a)); [auto | lia].
  - intros Hexact Hroom.
    destruct (Z.ltb_spec (BigNumber.value (_maxPacketAmount master))
                (BigNumber.value a)); [lia|].
    destruct (Z.ltb_spec (BigNumber.value (_maxBalance master))
                (BigNumber.value (receivableBalance (account w))
                 + BigNumber.value a)); [lia | eauto].
Qed.

(** Within [maxBalance] before the packet, within it after. *)
Lemma handleData_ilp_bounded master a reply w :
  0 <= BigNumber.value a ->
  BigNumber.value (receivableBalance (account w))
  <= BigNumber.value (_maxBalance master) ->
  BigNumber.value
    (receivableBalance (account (snd (handleData_ilp master (inr a) reply w))))
  <= BigNumber.value (_maxBalance master).
Proof.
  intros Hamount Hwithin.
  unfold handleData_ilp.
  destruct (handleData_admit master (inr a) w) as [err|admitted] eqn:Hadmit;
    [exact Hwithin|].
  apply handleData_admit_inr in Hadmit as (_ & Hroom & ->).
  destruct reply as [err|[|code]]; simpl;
    rewrite ?value_minus, ?value_plus; lia.
Qed.

(** The balance of receivables stays within [maxBalance]: when it is within
    [maxBalance] before a PREPARE of a non-negative amount, it is so after
    the packet has been handled, whatever the data handler answers. *)
Theorem handleData_ilp_within_maxBalance master a reply w :
  0 <= BigNumber.value a ->
  BigNumber.value (receivableBalance (account w))
  <= BigNumber.value (_maxBalance master) ->
  BigNumber.value
    (receivableBalance (account (snd (handleData_ilp master (inr a) reply w))))
  <= BigNumber.value (_maxBalance master).
Proof. apply handleData_ilp_bounded. Qed.

(** ** [sendMoney], reduction by reduction *)

(** The increment of a claim, in wei and in gwei, behind its guards. *)
Lemma sendMoney_increment_bounds `{Externals} cached (payout : BigNumber.t) :
  BigNumber.isPositive (remainingInChannel cached) = true ->
  BigNumber.isPositive (convert_gwei_wei payout) = true ->
  let increment :=
    BigNumber.min (remainingInChannel cached) (convert_gwei_wei payout) in
  0 <= BigNumber.value increment
  /\ BigNumber.value increment
     <= BigNumber.value (PaymentChannel.value cached)
        - BigNumber.value (PaymentChannel.spent cached)
  /\ BigNumber.value increment <= BigNumber.value payout * 10 ^ 9
  /\ 0 <= BigNumber.value (convert_wei_gwei_dp0 increment)
     <= BigNumber.value payout.
Proof.
  intros Hremaining Hbudget increment.
  destruct (sendMoney_guards_value cached payout Hremaining Hbudget)
    as [Hvalue Hnonneg].
  fold increment in Hvalue. rewrite <- Hvalue in Hnonneg.
  rewrite value_convert_wei_gwei_floor by exact Hnonneg.
  rewrite Hvalue in *.
  split; [lia|]. split; [lia|]. split; [lia|].
  split; [apply Z.div_pos; lia|].
  apply Z.div_le_upper_bound; lia.
Qed.

(** A reduction never lowers [spent], never claims more than the channel
    has left, and never more than the settlement budget ([payoutAmount],
    increased by the amount, in wei). *)
Theorem sendMoney_claims_within_budget `{Externals} master amount cached w :
  let budget :=
    (BigNumber.value (payoutAmount (account w))
     + match amount with
       | Some a => BigNumber.value a
       | None => Z.max 0 (BigNumber.value (payableBalance (account w)))
       end) * 10 ^ 9 in
  let remaining :=
    BigNumber.value (PaymentChannel.value cached)
    - BigNumber.value (PaymentChannel.spent cached) in
  exists next,
    fst (sendMoney master amount (Some cached) w) = Some next
    /\ BigNumber.value (PaymentChannel.spent cached)
       <= BigNumber.value (PaymentChannel.spent next)
    /\ BigNumber.value (PaymentChannel.spent next)
       - BigNumber.value (PaymentChannel.spent cached) <= Z.max 0 remaining
    /\ BigNumber.value (PaymentChannel.spent next)
       - BigNumber.value (PaymentChannel.spent cached) <= Z.max 0 budget.
Proof.
  intros budget remaining.
  destruct (sendMoney_cached master amount cached w)
    as [[_ E]|(Hremaining & Hbudget & E)]; rewrite E; clear E.
  { exists cached. simpl. split; [reflexivity|]. lia. }
  eexists. split; [reflexivity|].
  destruct (sendMoney_increment_bounds cached _ Hremaining Hbudget)
    as (Hnonneg & Hleft & Hwithin & _).
  rewrite value_payout_increased in Hwithin.
  simpl. rewrite value_plus. unfold spentFromChannel.
  subst budget remaining. lia.
Qed.

(** What a reduction leaves alone: the name of the account, the balance of
    receivables, the linked address, the channel links of the store and the
    watcher. Every reduction writes the account to the store under its own
    key, since every reduction assigns [payoutAmount]. The channel keeps its
    identity, its parties and its value; and at most one claim is sent,
    which is the channel that the reducer returns, signed for its [spent]. *)
Theorem sendMoney_frame `{Externals} master amount cachedChannel w :
  let result := sendMoney master amount cachedChannel w in
  accountName (account (snd result)) = accountName (account w)
  /\ receivableBalance (account (snd result)) = receivableBalance (account w)
  /\ ethereumAddress (account (snd result)) = ethereumAddress (account w)
  /\ _store (snd result) = _store w
  /\ _store_accounts (snd result)
     = {[ accountName (account w) ]} ∪ _store_accounts w
  /\ watcher (snd result) = watcher w
  /\ match cachedChannel, fst result with
     | None, None => calls (snd result) = calls w
     | Some cached, Some next =>
         PaymentChannel.channelId next = PaymentChannel.channelId cached
         /\ PaymentChannel.contractAddress next
            = PaymentChannel.contractAddress cached
         /\ PaymentChannel.sender next = PaymentChannel.sender cached
         /\ PaymentChannel.receiver next = PaymentChannel.receiver cached
         /\ PaymentChannel.value next = PaymentChannel.value cached
         /\ ((next = cached /\ calls (snd result) = calls w)
             \/ (calls (snd result) = calls w ++ [sendClaim next]
                 /\ PaymentChannel.signature next
                    = Some
                        (signDigest (_privateKey master)
                           (PaymentChannel.contractAddress cached)
                           (PaymentChannel.channelId cached)
                           (PaymentChannel.spent next))))
     | _, _ => False
     end.
Proof.
  intros result. subst result.
  destruct cachedChannel as [cached|]; [|simpl; auto 10].
  destruct (sendMoney_cached master amount cached w)
    as [[_ E]|(_ & _ & E)]; rewrite E; clear E; simpl;
    rewrite ?persistAccountData_again; auto 15.
Qed.

(** After a claim has been sent, [payoutAmount] is zero: the claim is never
    for more than the budget, so [min(0, payoutAmount - increment)] keeps
    nothing of it, also when the channel had less left than the budget; and
    [payableBalance] has gone down by the whole gwei of the claim, which are
    at most the budget. *)
Theorem sendMoney_resets_payoutAmount `{Externals} master amount cachedChannel
    w claimed :
  calls (snd (sendMoney master amount cachedChannel w))
  = calls w ++ [sendClaim claimed] ->
  let after := account (snd (sendMoney master amount cachedChannel w)) in
  let budget :=
    BigNumber.value (payoutAmount (account w))
    + match amount with
      | Some a => BigNumber.value a
      | None => Z.max 0 (BigNumber.value (payableBalance (account w)))
      end in
  BigNumber.value (payoutAmount after) = 0
  /\ BigNumber.value (payableBalance (account w)) - budget
     <= BigNumber.value (payableBalance after)
     <= BigNumber.value (payableBalance (account w)).
Proof.
  intros Hsent after budget. subst after.
  destruct cachedChannel as [cached|].
  2:{ simpl in Hsent. now apply calls_not_extended in Hsent. }
  destruct (sendMoney_cached master amount cached w)
    as [[_ E]|(Hremaining & Hbudget & E)]; rewrite E in *; clear E.
  { simpl in Hsent. now apply calls_not_extended in Hsent. }
  destruct (sendMoney_increment_bounds cached _ Hremaining Hbudget)
    as (_ & _ & _ & Hgwei).
  rewrite value_payout_increased in Hgwei. fold budget in Hgwei.
  simpl. rewrite value_min, !value_minus, value_payout_increased.
  fold budget. simpl. lia.
Qed.

(** A positive budget that the channel covers is settled in full. *)
Lemma sendMoney_settles_budget `{Externals} master amount cached w :
  let budget :=
    BigNumber.value (payoutAmount (account w))
    + match amount with
      | Some a => BigNumber.value a
      | None => Z.max 0 (BigNumber.value (payableBalance (account w)))
      end in
  0 < budget ->
  budget * 10 ^ 9
  <= BigNumber.value (PaymentChannel.value cached)
     - BigNumber.value (PaymentChannel.spent cached) ->
  exists next,
    fst (sendMoney master amount (Some cached) w) = Some next
    /\ calls (snd (sendMoney master amount (Some cached) w))
       = calls w ++ [sendClaim next]
    /\ BigNumber.value (PaymentChannel.spent next)
       = BigNumber.value (PaymentChannel.spent cached) + budget * 10 ^ 9
    /\ BigNumber.value
         (payableBalance
            (account (snd (sendMoney master amount (Some cached) w))))
       = BigNumber.value (payableBalance (account w)) - budget.
Proof.
  intros budget Hpositive Hcapacity.
  destruct (sendMoney_cached master amount cached w)
    as [[Hguard _]|(Hremaining & Hbudget & E)].
  { apply andb_false_iff in Hguard as [Hguard|Hguard];
      apply isPositive_false_value in Hguard.
    - unfold remainingInChannel in Hguard. rewrite value_minus in Hguard. lia.
    - rewrite value_convert_gwei_wei, value_payout_increased in Hguard.
      fold budget in Hguard. lia. }
  rewrite E. eexists. split; [reflexivity|].
  destruct (sendMoney_guards_value cached _ Hremaining Hbudget)
    as [Hincrement Hnonneg].
  rewrite value_payout_increased in Hincrement, Hnonneg.
  fold budget in Hincrement, Hnonneg.
  rewrite Z.min_r in Hincrement, Hnonneg by lia.
  simpl. split; [reflexivity|].
  rewrite value_plus, value_minus.
  rewrite value_convert_wei_gwei_floor by (rewrite Hincrement; lia).
  rewrite Hincrement. unfold spentFromChannel.
  rewrite Z.div_mul by lia. split; reflexivity.
Qed.

(** With a positive budget that the channel can cover, one reduction settles
    the budget in full: the claim grows by the budget in wei, and
    [payableBalance] goes down by the budget. *)
Theorem sendMoney_settles_in_full `{Externals} master amount cached w :
  let budget :=
    BigNumber.value (payoutAmount (account w))
    + match amount with
      | Some a => BigNumber.value a
      | None => Z.max 0 (BigNumber.value (payableBalance (account w)))
      end in
  0 < budget ->
  budget * 10 ^ 9
  <= BigNumber.value (PaymentChannel.value cached)
     - BigNumber.value (PaymentChannel.spent cached) ->
  exists next,
    fst (sendMoney master amount (Some cached) w) = Some next
    /\ calls (snd (sendMoney master amount (Some cached) w))
       = calls w ++ [sendClaim next]
    /\ BigNumber.value (PaymentChannel.spent next)
       = BigNumber.value (PaymentChannel.spent cached) + budget * 10 ^ 9
    /\ BigNumber.value
         (payableBalance
            (account (snd (sendMoney master amount (Some cached) w))))
       = BigNumber.value (payableBalance (account w)) - budget.
Proof. apply sendMoney_settles_budget. Qed.

(** While no channel is open, every [sendMoney()] adds [max(0,
    payableBalance)] to [payoutAmount] again and leaves [payableBalance] as
    it is: after [n] attempts the backlog has grown by [n] times the amount
    owed, and nothing has been sent. *)
Theorem sendMoney_without_channel_accumulates `{Externals} master (n : nat) w :
  let after :=
    Nat.iter n (fun w => snd (sendMoney master None None w)) w in
  BigNumber.value (payoutAmount (account after))
  = BigNumber.value (payoutAmount (account w))
    + Z.of_nat n * Z.max 0 (BigNumber.value (payableBalance (account w)))
  /\ payableBalance (account after) = payableBalance (account w)
  /\ calls after = calls w
  /\ fst (sendMoney master None None after) = None.
Proof.
  intros after. subst after.
  assert (Hstep : forall w',
    sendMoney master None None w'
    = (None,
       set_payoutAmount
         (BigNumber.plus (payoutAmount (account w'))
            (BigNumber.max (BigNumber.Int 0) (payableBalance (account w'))))
         w')) by reflexivity.
  induction n as [|n (IHpayout & IHpayable & IHcalls & _)].
  { simpl. repeat split; lia. }
  rewrite Nat.iter_succ, !Hstep. cbn [fst snd].
  remember (Nat.iter n (fun w => snd (sendMoney master None None w)) w)
    as before.
  simpl. rewrite value_plus, value_max, IHpayout, IHpayable.
  split; [rewrite Nat2Z.inj_succ; simpl BigNumber.value; nia|]. auto.
Qed.

(** ** [validateClaim], attempt by attempt *)

(** One attempt on a channel that is not cached, when the chain does not
    know the channel yet, and when it does. *)
Lemma validateClaim_attempts_new_retry `{Externals} remaining master
    fetchChannel claim w :
  fetchChannel (20 - remaining)%nat (SerializedClaim.channelId claim) = None ->
  validateClaim_attempts (S remaining) master fetchChannel claim None w
  = validateClaim_attempts remaining master fetchChannel claim None w.
Proof. intros Hfetch. simpl. now rewrite Hfetch. Qed.

Lemma validateClaim_attempts_new_found `{Externals} remaining remaining'
    master fetchChannel fetchChannel' claim updated w :
  fetchChannel (20 - remaining)%nat (SerializedClaim.channelId claim)
  = Some updated ->
  fetchChannel' (20 - remaining')%nat (SerializedClaim.channelId claim)
  = Some updated ->
  validateClaim_attempts (S remaining) master fetchChannel claim None w
  = validateClaim_attempts (S remaining') master fetchChannel' claim None w.
Proof. intros Hfetch Hfetch'. simpl. now rewrite Hfetch, Hfetch'. Qed.

Lemma validateClaim_attempts_new_skip `{Externals} (k : nat) master
    fetchChannel claim w :
  (k <= 21)%nat ->
  (forall attempts, (attempts < k)%nat ->
     fetchChannel attempts (SerializedClaim.channelId claim) = None) ->
  validateClaim_attempts 21 master fetchChannel claim None w
  = validateClaim_attempts (21 - k) master fetchChannel claim None w.
Proof.
  induction k as [|k IH]; intros Hk Hnone; [reflexivity|].
  rewrite IH by (try lia; intros; apply Hnone; lia).
  replace (21 - k)%nat with (S (20 - k)) by lia.
  replace (21 - S k)%nat with (20 - k)%nat by lia.
  apply validateClaim_attempts_new_retry.
  replace (20 - (20 - k))%nat with k by lia. apply Hnone. lia.
Qed.

(** A first claim waits for the channel: [validateClaim] asks the chain
    until it knows the channel, at 21 attempts at most, and then decides as
    if the chain had known the channel at once; when none of the 21 attempts
    finds the channel, the claim is dropped and nothing changes. *)
Theorem validateClaim_waits_for_channel `{Externals} master fetchChannel claim
    w :
  (forall (k : nat) updated,
     (k <= 20)%nat ->
     (forall attempts, (attempts < k)%nat ->
        fetchChannel attempts (SerializedClaim.channelId claim) = None) ->
     fetchChannel k (SerializedClaim.channelId claim) = Some updated ->
     validateClaim master fetchChannel claim None w
     = validateClaim master (fun attempts channelId => Some updated) claim
         None w)
  /\ ((forall attempts, (attempts <= 20)%nat ->
         fetchChannel attempts (SerializedClaim.channelId claim) = None) ->
      validateClaim master fetchChannel claim None w = (None, w)).
Proof.
  unfold validateClaim. split.
  - intros k updated Hk Hnone Hfound.
    rewrite (validateClaim_attempts_new_skip k) by (try lia; exact Hnone).
    replace (21 - k)%nat with (S (20 - k)) by lia.
    apply validateClaim_attempts_new_found with (updated := updated);
      [|reflexivity].
    replace (20 - (20 - k))%nat with k by lia. exact Hfound.
  - intros Hnone.
    rewrite (validateClaim_attempts_new_skip 21)
      by (try lia; intros; apply Hnone; lia).
    reflexivity.
Qed.

(** The checks on a channel that the chain knows, for a first claim. *)
Lemma validateClaim_new_decision `{Externals} master claim updated w :
  validateClaim master (fun attempts channelId => Some updated) claim None w
  = if BigNumber.isNegative (SerializedClaim.value claim)
       || negb
            (String.eqb (toLowerCase (SerializedClaim.contractAddress claim))
               (toLowerCase (_contract_options_address master)))
       || negb (isValidClaimSignature claim updated)
       || negb
            (String.eqb (toLowerCase (PaymentChannel.receiver updated))
               (toLowerCase (_ethereumAddress master)))
       || negb
            (BigNumber.isGreaterThanOrEqualTo
               (PaymentChannel.disputePeriod updated)
               (_minIncomingDisputePeriod master))
       || bool_decide (is_Some (_store w !! channelKey claim))
    then (None, w)
    else
      validateClaim_credit claim None updated
        (store_set (channelKey claim) (accountName (account w)) w).
Proof.
  unfold validateClaim.
  change 21%nat with (S 20).
  cbn [validateClaim_attempts].
  repeat (case_test; cbn [negb orb]; try reflexivity).
Qed.

(** A first claim is rejected, with nothing changed, when its value is
    negative, when it names another contract, when its signature is not
    that of the sender of the channel, when the channel is not to our
    address, or when the dispute period of the channel is below the
    minimum. *)
Theorem validateClaim_rejects_new_channel `{Externals} master claim updated w :
  BigNumber.isNegative (SerializedClaim.value claim) = true
  \/ toLowerCase (SerializedClaim.contractAddress claim)
     <> toLowerCase (_contract_options_address master)
  \/ isValidClaimSignature claim updated = false
  \/ toLowerCase (PaymentChannel.receiver updated)
     <> toLowerCase (_ethereumAddress master)
  \/ BigNumber.value (PaymentChannel.disputePeriod updated)
     < BigNumber.value (_minIncomingDisputePeriod master) ->
  validateClaim master (fun attempts channelId => Some updated) claim None w
  = (None, w).
Proof.
  intros Hreason. rewrite validateClaim_new_decision.
  match goal with |- (if ?guard then _ else _) = _ =>
    assert (Hguard : guard = true); [|now rewrite Hguard] end.
  destruct Hreason as [Hneg|[Hcontract|[Hsig|[Hreceiver|Hperiod]]]].
  - now rewrite Hneg.
  - apply String.eqb_neq in Hcontract. rewrite Hcontract.
    now rewrite !orb_true_r.
  - rewrite Hsig. now rewrite !orb_true_r.
  - apply String.eqb_neq in Hreceiver. rewrite Hreceiver.
    now rewrite !orb_true_r.
  - unfold BigNumber.isGreaterThanOrEqualTo.
    destruct (Z.leb_spec (BigNumber.value (_minIncomingDisputePeriod master))
                (BigNumber.value (PaymentChannel.disputePeriod updated)));
      [lia|].
    now rewrite !orb_true_r.
Qed.

(** What the accounting of a claim changes: the balance of receivables, by
    the amount that the money handler is called with, the watcher, which it
    starts, and nothing else. *)
Lemma validateClaim_credit_effects claim cachedChannel updated w :
  let after := snd (validateClaim_credit claim cachedChannel updated w) in
  payableBalance (account after) = payableBalance (account w)
  /\ payoutAmount (account after) = payoutAmount (account w)
  /\ ethereumAddress (account after) = ethereumAddress (account w)
  /\ accountName (account after) = accountName (account w)
  /\ (watcher w = true -> watcher after = true)
  /\ ((calls after = calls w
       /\ receivableBalance (account after) = receivableBalance (account w))
      \/ exists amount,
           calls after = calls w ++ [moneyHandler amount]
           /\ 0 <= BigNumber.value amount
           /\ receivableBalance (account after)
              = BigNumber.minus (receivableBalance (account w)) amount).
Proof.
  unfold validateClaim_credit.
  destruct (BigNumber.isPositive _) eqn:Hpositive.
  - apply isPositive_value in Hpositive.
    assert (Hamount : forall x, 0 <= BigNumber.value x ->
              0 <= BigNumber.value (convert_wei_gwei_dp0 x)).
    { intros x Hx. rewrite value_convert_wei_gwei_floor by exact Hx.
      apply Z.div_pos; lia. }
    destruct w as [acct store accounts [|] sent], cachedChannel; simpl;
      do 4 (split; [reflexivity|]); (split; [auto|]);
      right; eexists; eauto.
  - destruct w as [acct store accounts [|] sent], cachedChannel; simpl;
      do 4 (split; [reflexivity|]); (split; [auto|]); left; auto.
Qed.

(** A claim on the cached channel leaves channel and world as they are, or
    is credited against a view of the channel that covers it, under the
    identifier of the cached channel and a signature that verifies. *)
Lemma validateClaim_attempts_cached `{Externals} remaining master fetchChannel
    claim cached w :
  validateClaim_attempts remaining master fetchChannel claim (Some cached) w
  = (Some cached, w)
  \/ exists updated,
       SerializedClaim.channelId claim = PaymentChannel.channelId cached
       /\ BigNumber.value (SerializedClaim.value claim)
          <= BigNumber.value (PaymentChannel.value updated)
       /\ isValidClaimSignature claim updated = true
       /\ validateClaim_attempts remaining master fetchChannel claim
            (Some cached) w
          = validateClaim_credit claim (Some cached) updated w.
Proof.
  induction remaining as [|remaining IH]; [now left|].
  cbn [validateClaim_attempts].
  destruct (if BigNumber.isGreaterThan _ _ then _ else _) as [updated|];
    [|now left].
  unfold BigNumber.isGreaterThanOrEqualTo.
  destruct (Z.leb_spec (BigNumber.value (SerializedClaim.value claim))
              (BigNumber.value (PaymentChannel.value updated)));
    cbn [negb]; [|exact IH].
  destruct (String.eqb_spec (SerializedClaim.channelId claim)
              (PaymentChannel.channelId cached)); cbn [negb]; [|now left].
  destruct (isValidClaimSignature claim updated) eqn:Hvalid; cbn [negb];
    [|now left].
  right. exists updated. auto.
Qed.

(** With a channel cached, [validateClaim] never drops the channel and never
    moves to another one: it returns the cached channel, or a channel with
    the same identifier whose [spent] is the value of the claim, not below
    the cached [spent] and not above the value of the channel. *)
Theorem validateClaim_keeps_cached_channel `{Externals} master fetchChannel
    claim cached w :
  exists next,
    fst (validateClaim master fetchChannel claim (Some cached) w) = Some next
    /\ PaymentChannel.channelId next = PaymentChannel.channelId cached
    /\ BigNumber.value (PaymentChannel.spent cached)
       <= BigNumber.value (PaymentChannel.spent next)
    /\ (next = cached
        \/ (PaymentChannel.spent next = SerializedClaim.value claim
            /\ PaymentChannel.signature next
               = Some (SerializedClaim.signature claim)
            /\ BigNumber.value (PaymentChannel.spent next)
               <= BigNumber.value (PaymentChannel.value next))).
Proof.
  unfold validateClaim.
  destruct (validateClaim_attempts_cached 21 master fetchChannel claim cached
              w) as [->|(updated & Hid & Hcovered & _ & ->)].
  { exists cached. simpl. split; [reflexivity|]. split; [reflexivity|].
    split; [lia | now left]. }
  unfold validateClaim_credit.
  destruct (BigNumber.isPositive _) eqn:Hpositive.
  - apply isPositive_value in Hpositive.
    rewrite value_minus, value_min in Hpositive.
    eexists. split; [reflexivity|]. simpl.
    split; [exact Hid|]. split; [lia|]. right. auto.
  - exists cached. simpl. split; [reflexivity|]. split; [reflexivity|].
    split; [lia | now left].
Qed.

(** A claim for less than the cached [spent] is ignored: channel and world
    stay as they are, whatever the chain answers and whatever the claim is
    signed with. *)
Theorem validateClaim_regression_ignored `{Externals} master fetchChannel
    claim cached w :
  BigNumber.value (SerializedClaim.value claim)
  < BigNumber.value (PaymentChannel.spent cached) ->
  validateClaim master fetchChannel claim (Some cached) w = (Some cached, w).
Proof.
  intros Hlower. unfold validateClaim.
  destruct (validateClaim_attempts_cached 21 master fetchChannel claim cached
              w) as [->|(updated & _ & _ & _ & ->)]; [reflexivity|].
  unfold validateClaim_credit.
  destruct (BigNumber.isPositive _) eqn:Hpositive; [|reflexivity].
  apply isPositive_value in Hpositive.
  rewrite value_minus, value_min in Hpositive. lia.
Qed.

(** The effects of a claim on the world. *)
Lemma validateClaim_effects `{Externals} master fetchChannel claim
    cachedChannel w :
  let after := snd (validateClaim master fetchChannel claim cachedChannel w) in
  payableBalance (account after) = payableBalance (account w)
  /\ payoutAmount (account after) = payoutAmount (account w)
  /\ ethereumAddress (account after) = ethereumAddress (account w)
  /\ (watcher w = true -> watcher after = true)
  /\ BigNumber.value (receivableBalance (account after))
     <= BigNumber.value (receivableBalance (account w))
  /\ (calls after = calls w
      \/ exists amount,
           calls after = calls w ++ [moneyHandler amount]
           /\ 0 <= BigNumber.value amount
           /\ BigNumber.value amount
              = BigNumber.value (receivableBalance (account w))
                - BigNumber.value (receivableBalance (account after))).
Proof.
  intros after. subst after. unfold validateClaim.
  assert (Hcases :
    snd (validateClaim_attempts 21 master fetchChannel claim cachedChannel w)
    = w
    \/ exists updated w0,
         (w0 = w
          \/ w0 = store_set (channelKey claim) (accountName (account w)) w)
         /\ snd (validateClaim_attempts 21 master fetchChannel claim
                   cachedChannel w)
            = snd (validateClaim_credit claim cachedChannel updated w0)).
  { destruct cachedChannel as [cached|].
    - destruct (validateClaim_attempts_cached 21 master fetchChannel claim
                  cached w) as [->|(updated & _ & _ & _ & ->)];
        [now left | right; eauto].
    - destruct (validateClaim_attempts_new 21 master fetchChannel claim w)
        as [->|(_ & updated & ->)]; [now left | right; eauto]. }
  destruct Hcases as [->|(updated & w0 & Hw0 & ->)].
  { repeat split; auto; lia. }
  destruct (validateClaim_credit_effects claim cachedChannel updated w0)
    as (Hpayable & Hpayout & Haddress & _ & Hwatcher & Hcalls).
  assert (Hsame :
    account w0 = account w /\ calls w0 = calls w /\ watcher w0 = watcher w)
    by (destruct Hw0 as [->| ->]; auto).
  destruct Hsame as (Haccount & Hsent & Htimer).
  rewrite Haccount, Hsent, Htimer in *.
  split; [exact Hpayable|]. split; [exact Hpayout|].
  split; [exact Haddress|]. split; [exact Hwatcher|].
  destruct Hcalls as [[-> ->]|(amount & -> & Hnonneg & ->)].
  - split; [lia | now left].
  - rewrite value_minus. split; [lia|]. right. exists amount.
    repeat split; [exact Hnonneg | lia].
Qed.

(** What [validateClaim] never does: it never raises the balance of
    receivables, never touches [payableBalance], [payoutAmount] or the linked
    address, never stops the watcher, and calls nothing but the money
    handler, once at most, with the non-negative amount by which the balance
    has gone down. *)
Theorem validateClaim_frame `{Externals} master fetchChannel claim
    cachedChannel w :
  let after := snd (validateClaim master fetchChannel claim cachedChannel w) in
  payableBalance (account after) = payableBalance (account w)
  /\ payoutAmount (account after) = payoutAmount (account w)
  /\ ethereumAddress (account after) = ethereumAddress (account w)
  /\ (watcher w = true -> watcher after = true)
  /\ BigNumber.value (receivableBalance (account after))
     <= BigNumber.value (receivableBalance (account w))
  /\ (calls after = calls w
      \/ exists amount,
           calls after = calls w ++ [moneyHandler amount]
           /\ 0 <= BigNumber.value amount
           /\ BigNumber.value amount
              = BigNumber.value (receivableBalance (account w))
                - BigNumber.value (receivableBalance (account after))).
Proof. apply validateClaim_effects. Qed.


(** One attempt on the cached channel, for a claim above its cached value:
    the chain is asked, and a view that does not cover the claim yet leads
    to the next attempt. *)
Lemma validateClaim_attempts_cached_retry `{Externals} remaining master
    fetchChannel claim cached updated w :
  BigNumber.value (PaymentChannel.value cached)
  < BigNumber.value (SerializedClaim.value claim) ->
  fetchChannel (20 - remaining)%nat (SerializedClaim.channelId claim)
  = Some updated ->
  BigNumber.value (PaymentChannel.value updated)
  < BigNumber.value (SerializedClaim.value claim) ->
  validateClaim_attempts (S remaining) master fetchChannel claim (Some cached)
    w
  = validateClaim_attempts remaining master fetchChannel claim (Some cached) w.
Proof.
  intros Habove Hfetch Hshort. cbn [validateClaim_attempts].
  unfold BigNumber.isGreaterThan, BigNumber.isGreaterThanOrEqualTo.
  destruct (Z.ltb_spec (BigNumber.value (PaymentChannel.value cached))
              (BigNumber.value (SerializedClaim.value claim))); [|lia].
  rewrite Hfetch.
  destruct (Z.leb_spec (BigNumber.value (SerializedClaim.value claim))
              (BigNumber.value (PaymentChannel.value updated))); [lia|].
  reflexivity.
Qed.

Lemma validateClaim_attempts_cached_found `{Externals} remaining remaining'
    master fetchChannel fetchChannel' claim cached updated w :
  BigNumber.value (PaymentChannel.value cached)
  < BigNumber.value (SerializedClaim.value claim) ->
  fetchChannel (20 - remaining)%nat (SerializedClaim.channelId claim)
  = Some updated ->
  fetchChannel' (20 - remaining')%nat (SerializedClaim.channelId claim)
  = Some updated ->
  BigNumber.value (SerializedClaim.value claim)
  <= BigNumber.value (PaymentChannel.value updated) ->
  validateClaim_attempts (S remaining) master fetchChannel claim (Some cached)
    w
  = validateClaim_attempts (S remaining') master fetchChannel' claim
      (Some cached) w.
Proof.
  intros Habove Hfetch Hfetch' Hcovered. cbn [validateClaim_attempts].
  unfold BigNumber.isGreaterThan, BigNumber.isGreaterThanOrEqualTo.
  destruct (Z.ltb_spec (BigNumber.value (PaymentChannel.value cached))
              (BigNumber.value (SerializedClaim.value claim))); [|lia].
  rewrite Hfetch, Hfetch'.
  destruct (Z.leb_spec (BigNumber.value (SerializedClaim.value claim))
              (BigNumber.value (PaymentChannel.value updated))); [|lia].
  reflexivity.
Qed.

Lemma validateClaim_attempts_cached_skip `{Externals} (k : nat) master
    fetchChannel claim cached w :
  (k <= 21)%nat ->
  BigNumber.value (PaymentChannel.value cached)
  < BigNumber.value (SerializedClaim.value claim) ->
  (forall attempts, (attempts < k)%nat ->
     exists updated,
       fetchChannel attempts (SerializedClaim.channelId claim) = Some updated
       /\ BigNumber.value (PaymentChannel.value updated)
          < BigNumber.value (SerializedClaim.value claim)) ->
  validateClaim_attempts 21 master fetchChannel claim (Some cached) w
  = validateClaim_attempts (21 - k) master fetchChannel claim (Some cached) w.
Proof.
  induction k as [|k IH]; intros Hk Habove Hshort; [reflexivity|].
  rewrite IH by (try lia; try exact Habove; intros; apply Hshort; lia).
  replace (21 - k)%nat with (S (20 - k)) by lia.
  replace (21 - S k)%nat with (20 - k)%nat by lia.
  destruct (Hshort k) as (updated & Hfetch & Hbelow); [lia|].
  apply validateClaim_attempts_cached_retry with (updated := updated);
    [exact Habove | | exact Hbelow].
  replace (20 - (20 - k))%nat with k by lia. exact Hfetch.
Qed.

(** A claim above the cached value of the channel waits for the deposit:
    [validateClaim] asks the chain until the value of the channel covers the
    claim, at 21 attempts at most, and then decides as if the chain had
    shown that value at once; when the channel stays short on each of the 21
    attempts, the claim is dropped and the cached channel is kept. *)
Theorem validateClaim_waits_for_deposit `{Externals} master fetchChannel claim
    cached w :
  BigNumber.value (PaymentChannel.value cached)
  < BigNumber.value (SerializedClaim.value claim) ->
  (forall (k : nat) updated,
     (k <= 20)%nat ->
     (forall attempts, (attempts < k)%nat ->
        exists short,
          fetchChannel attempts (SerializedClaim.channelId claim) = Some short
          /\ BigNumber.value (PaymentChannel.value short)
             < BigNumber.value (SerializedClaim.value claim)) ->
     fetchChannel k (SerializedClaim.channelId claim) = Some updated ->
     BigNumber.value (SerializedClaim.value claim)
     <= BigNumber.value (PaymentChannel.value updated) ->
     validateClaim master fetchChannel claim (Some cached) w
     = validateClaim master (fun attempts channelId => Some updated) claim
         (Some cached) w)
  /\ ((forall attempts, (attempts <= 20)%nat ->
         exists short,
           fetchChannel attempts (SerializedClaim.channelId claim)
           = Some short
           /\ BigNumber.value (PaymentChannel.value short)
              < BigNumber.value (SerializedClaim.value claim)) ->
      validateClaim master fetchChannel claim (Some cached) w
      = (Some cached, w)).
Proof.
  intros Habove. unfold validateClaim. split.
  - intros k updated Hk Hshort Hfound Hcovered.
    rewrite (validateClaim_attempts_cached_skip k)
      by (try lia; try exact Habove; exact Hshort).
    replace (21 - k)%nat with (S (20 - k)) by lia.
    apply validateClaim_attempts_cached_found with (updated := updated);
      [exact Habove | | reflexivity | exact Hcovered].
    replace (20 - (20 - k))%nat with k by lia. exact Hfound.
  - intros Hshort.
    rewrite (validateClaim_attempts_cached_skip 21)
      by (try lia; try exact Habove; intros; apply Hshort; lia).
    reflexivity.
Qed.

(** A claim within the cached value of the channel is decided without the
    chain. *)
Lemma validateClaim_cached_without_chain `{Externals} master fetchChannel
    claim cached w :
  BigNumber.value (SerializedClaim.value claim)
  <= BigNumber.value (PaymentChannel.value cached) ->
  SerializedClaim.channelId claim = PaymentChannel.channelId cached ->
  isValidClaimSignature claim cached = true ->
  validateClaim master fetchChannel claim (Some cached) w
  = validateClaim_credit claim (Some cached) cached w.
Proof.
  intros Hwithin Hid Hvalid. unfold validateClaim.
  change 21%nat with (S 20). cbn [validateClaim_attempts].
  unfold BigNumber.isGreaterThan, BigNumber.isGreaterThanOrEqualTo.
  destruct (Z.ltb_spec (BigNumber.value (PaymentChannel.value cached))
              (BigNumber.value (SerializedClaim.value claim))); [lia|].
  destruct (Z.leb_spec (BigNumber.value (SerializedClaim.value claim))
              (BigNumber.value (PaymentChannel.value cached))); [|lia].
  rewrite Hid, String.eqb_refl, Hvalid. reflexivity.
Qed.

(** ** From [sendMoney] to [validateClaim] *)

(** The claim that one peer sends is credited by the other for what it has
    cost the sender: when the receiver caches the channel with the value and
    the [spent] that the sender had before the reduction, and the signature
    verifies, [validateClaim] accepts the claim that [sendMoney] has sent,
    takes over its [spent], and calls the money handler with the amount by
    which [payableBalance] of the sender has gone down, which is the amount
    by which the balance of receivables of the receiver goes down. *)
Theorem sendMoney_claim_is_credited `{Externals} master master' fetchChannel
    amount cached sender received receiver claimed claim :
  calls (snd (sendMoney master amount (Some cached) sender))
  = calls sender ++ [sendClaim claimed] ->
  sendClaim_claim claimed = Some claim ->
  PaymentChannel.channelId received = PaymentChannel.channelId cached ->
  BigNumber.value (PaymentChannel.value received)
  = BigNumber.value (PaymentChannel.value cached) ->
  BigNumber.value (PaymentChannel.spent received)
  = BigNumber.value (PaymentChannel.spent cached) ->
  isValidClaimSignature claim received = true ->
  let settled :=
    BigNumber.value (payableBalance (account sender))
    - BigNumber.value
        (payableBalance
           (account (snd (sendMoney master amount (Some cached) sender)))) in
  exists next after,
    validateClaim master' fetchChannel claim (Some received) receiver
    = (Some next, after)
    /\ BigNumber.value (PaymentChannel.spent next)
       = BigNumber.value (PaymentChannel.spent claimed)
    /\ calls after = calls receiver ++ [moneyHandler (BigNumber.Int settled)]
    /\ BigNumber.value (receivableBalance (account after))
       = BigNumber.value (receivableBalance (account receiver)) - settled.
Proof.
  intros Hsent Hclaim Hid Hvalue Hspent Hvalid settled.
  destruct (sendMoney_cached master amount cached sender)
    as [[_ E]|(Hremaining & Hbudget & E)]; subst settled; rewrite E in *;
    clear E.
  { simpl in Hsent. now apply calls_not_extended in Hsent. }
  simpl in Hsent. apply app_inv_head in Hsent. injection Hsent as <-.
  destruct (sendMoney_increment_bounds cached _ Hremaining Hbudget)
    as (Hnonneg & Hleft & _ & _).
  remember
    (BigNumber.min (remainingInChannel cached)
       (convert_gwei_wei
          (BigNumber.plus (payoutAmount (account sender))
             match amount with
             | Some a => a
             | None =>
                 BigNumber.max (BigNumber.Int 0)
                   (payableBalance (account sender))
             end))) as increment eqn:Hincrement.
  unfold sendClaim_claim, signClaim in Hclaim. simpl in Hclaim.
  injection Hclaim as <-.
  rewrite value_plus in *. unfold spentFromChannel in *.
  rewrite validateClaim_cached_without_chain;
    [|simpl; lia | simpl; congruence | exact Hvalid].
  unfold validateClaim_credit. cbn [SerializedClaim.value].
  set (total := BigNumber.value (PaymentChannel.spent cached)
                + BigNumber.value increment) in *.
  assert (Hmin :
    BigNumber.min (BigNumber.Int total) (PaymentChannel.value received)
    = BigNumber.Int total).
  { unfold BigNumber.min, BigNumber.isGreaterThan. simpl.
    destruct (Z.ltb_spec (BigNumber.value (PaymentChannel.value received))
                total); [lia | reflexivity]. }
  rewrite Hmin.
  assert (Hcredit :
    BigNumber.minus (BigNumber.Int total) (PaymentChannel.spent received)
    = BigNumber.Int (BigNumber.value increment)).
  { unfold BigNumber.minus. simpl.
    destruct (PaymentChannel.spent received) as [|[| |]]; simpl in *;
      f_equal; lia. }
  rewrite Hcredit.
  assert (Hpositive :
    BigNumber.isPositive (BigNumber.Int (BigNumber.value increment)) = true)
    by (simpl; lia).
  rewrite Hpositive.
  assert (Hgwei :
    convert_wei_gwei_dp0 (BigNumber.Int (BigNumber.value increment))
    = BigNumber.Int (BigNumber.value increment / 10 ^ 9)).
  { unfold convert_wei_gwei_dp0, BigNumber.shiftedDown.
    replace (BigNumber.value increment <? 0) with false by lia.
    rewrite andb_false_r. f_equal. apply Z.quot_div_nonneg; lia. }
  rewrite Hgwei.
  assert (Hsettled :
    BigNumber.value (payableBalance (account sender))
    - BigNumber.value
        (BigNumber.minus (payableBalance (account sender))
           (convert_wei_gwei_dp0 increment))
    = BigNumber.value increment / 10 ^ 9).
  { rewrite value_minus, value_convert_wei_gwei_floor by exact Hnonneg.
    lia. }
  simpl. rewrite Hsettled.
  destruct receiver as [acct store accounts [|] sent]; simpl; do 2 eexists;
    (split; [reflexivity|]); simpl; rewrite value_minus, value_plus; simpl;
    repeat split; reflexivity.
Qed.

(** ** [handlePrepareResponse] *)

(** A FULFILL is settled at once: [handlePrepareResponse] credits the amount
    of the PREPARE to [payableBalance] and asks for a settlement, and when
    there is no backlog and the channel can cover what is owed, the
    settlement sends a claim for all of it and leaves [payableBalance] at
    zero. *)
Theorem handlePrepareResponse_fulfill_settles `{Externals} master a cached w :
  let owed :=
    BigNumber.value (payableBalance (account w)) + BigNumber.value a in
  BigNumber.value (payoutAmount (account w)) = 0 ->
  0 < owed ->
  owed * 10 ^ 9
  <= BigNumber.value (PaymentChannel.value cached)
     - BigNumber.value (PaymentChannel.spent cached) ->
  let credited := fst (handlePrepareResponse a IlpFulfill w) in
  let settled := sendMoney master None (Some cached) credited in
  snd (handlePrepareResponse a IlpFulfill w) = true
  /\ BigNumber.value (payableBalance (account credited)) = owed
  /\ exists next,
       fst settled = Some next
       /\ calls (snd settled) = calls w ++ [sendClaim next]
       /\ BigNumber.value (PaymentChannel.spent next)
          = BigNumber.value (PaymentChannel.spent cached) + owed * 10 ^ 9
       /\ BigNumber.value (payableBalance (account (snd settled))) = 0.
Proof.
  intros owed Hbacklog Hpositive Hcapacity credited settled.
  assert (Hcredited :
    BigNumber.value (payableBalance (account credited)) = owed).
  { subst credited. simpl. apply value_plus. }
  split; [reflexivity|]. split; [exact Hcredited|].
  destruct (sendMoney_settles_budget master None cached credited)
    as (next & Hnext & Hcalls & Hspent & Hpayable).
  - rewrite Hcredited. subst credited. simpl. lia.
  - rewrite Hcredited. subst credited. simpl. lia.
  - rewrite Hcredited in *.
    replace (BigNumber.value (payoutAmount (account credited)))
      with 0 in * by (subst credited; simpl; lia).
    exists next. subst settled. rewrite Hnext, Hcalls, Hspent, Hpayable.
    split; [reflexivity|]. split; [reflexivity|]. split; lia.
Qed.

(** A REJECT changes no balance; it asks for a settlement when its code is
    T04, and for none otherwise. A settlement with nothing owed, on a
    channel that has funds left, sends the last claim once more: the claim
    is signed for the [spent] that the channel has. *)
Theorem handlePrepareResponse_reject `{Externals} master a code cached w :
  fst (handlePrepareResponse a (IlpReject code) w) = w
  /\ (snd (handlePrepareResponse a (IlpReject code) w) = true
      <-> code = "T04")
  /\ (BigNumber.value (payableBalance (account w)) <= 0 ->
      BigNumber.value (payoutAmount (account w)) = 0 ->
      0 < BigNumber.value (PaymentChannel.value cached)
          - BigNumber.value (PaymentChannel.spent cached) ->
      exists next,
        fst (sendMoney master None (Some cached) w) = Some next
        /\ calls (snd (sendMoney master None (Some cached) w))
           = calls w ++ [sendClaim next]
        /\ BigNumber.value (PaymentChannel.spent next)
           = BigNumber.value (PaymentChannel.spent cached)).
Proof.
  split; [reflexivity|]. split.
  { simpl. apply String.eqb_eq. }
  intros Hnothing Hbacklog Hfunds.
  destruct (sendMoney_cached master None cached w)
    as [[Hguard _]|(Hremaining & Hbudget & E)].
  { apply andb_false_iff in Hguard as [Hguard|Hguard].
    - apply isPositive_false_value in Hguard.
      unfold remainingInChannel in Hguard. rewrite value_minus in Hguard. lia.
    - exfalso. revert Hguard.
      unfold BigNumber.max, BigNumber.isLessThan. simpl.
      destruct (Z.ltb_spec 0 (BigNumber.value (payableBalance (account w))));
        [lia|].
      destruct (payoutAmount (account w)); simpl in *; subst; discriminate. }
  rewrite E. eexists. split; [reflexivity|]. split; [reflexivity|].
  destruct (sendMoney_guards_value cached _ Hremaining Hbudget)
    as [Hincrement _].
  pose proof (value_payout_increased None w) as Hpayout.
  cbv beta iota in Hpayout. rewrite Hpayout in Hincrement.
  simpl. rewrite value_plus, Hincrement. unfold spentFromChannel. lia.
Qed.

(** ** [claimIfProfitable], from the gate to the cache *)

(** [refreshChannel] after a claim: the cache is cleared as soon as one of
    the 21 attempts finds the channel gone, and keeps the channel
    otherwise. *)
Lemma refreshChannel_claimed_cases (remaining : nat) fetchChannel updated :
  (remaining <= 21)%nat ->
  ((exists attempts,
      (21 - remaining <= attempts <= 20)%nat
      /\ fetchChannel attempts (PaymentChannel.channelId updated) = None)
   /\ refreshChannel_claimed remaining fetchChannel updated = None)
  \/ ((forall attempts,
         (21 - remaining <= attempts <= 20)%nat ->
         fetchChannel attempts (PaymentChannel.channelId updated) <> None)
      /\ refreshChannel_claimed remaining fetchChannel updated
         = Some updated).
Proof.
  induction remaining as [|remaining IH]; intros Hbound.
  { right. split; [intros; lia | reflexivity]. }
  cbn [refreshChannel_claimed].
  destruct (fetchChannel (20 - remaining)%nat
              (PaymentChannel.channelId updated)) as [still|] eqn:Hfetch.
  - destruct IH as [[(attempts & Hrange & Hgone) ->]|[Hall ->]]; [lia | |].
    + left. split; [|reflexivity]. exists attempts. split; [lia | exact Hgone].
    + right. split; [|reflexivity]. intros attempts Hrange.
      destruct (Nat.eq_dec attempts (20 - remaining)) as [->|Hother];
        [congruence | apply Hall; lia].
  - left. split; [|reflexivity]. exists (20 - remaining)%nat.
    split; [lia | exact Hfetch].
Qed.

(** The gate of [claimIfProfitable] and what lies behind it. *)
Lemma claimIfProfitable_cases `{Externals} requireDisputed authorize
    updateChannel txFee confirmed fetchChannel cachedChannel w :
  (exists next,
     claimIfProfitable requireDisputed authorize updateChannel txFee confirmed
       fetchChannel cachedChannel w
     = (resolved next, w)
     /\ ~ (exists cached updated,
             cachedChannel = Some cached
             /\ truthy (PaymentChannel.signature cached) = true
             /\ updateChannel cached = Some updated
             /\ (requireDisputed = true -> isDisputed updated = true)
             /\ match authorize with
                | Some authorized => authorized updated txFee = true
                | None =>
                    BigNumber.value txFee
                    < BigNumber.value (PaymentChannel.spent updated)
                end))
  \/ (exists cached updated,
        cachedChannel = Some cached
        /\ truthy (PaymentChannel.signature cached) = true
        /\ updateChannel cached = Some updated
        /\ (requireDisputed = true -> isDisputed updated = true)
        /\ match authorize with
           | Some authorized => authorized updated txFee = true
           | None =>
               BigNumber.value txFee
               < BigNumber.value (PaymentChannel.spent updated)
           end
        /\ claimIfProfitable requireDisputed authorize updateChannel txFee
             confirmed fetchChannel cachedChannel w
           = (if confirmed
              then resolved (refreshChannel_claimed 21 fetchChannel updated)
              else rejected,
              call
                (sendTransaction_claim (PaymentChannel.channelId updated)
                   (PaymentChannel.spent updated)
                   (PaymentChannel.signature updated)) w)).
Proof.
  unfold claimIfProfitable.
  destruct cachedChannel as [cached|].
  2:{ left. eexists. split; [reflexivity|].
      intros (c & u & Hc & _). discriminate. }
  destruct (truthy (PaymentChannel.signature cached)) eqn:Hsigned;
    cbn [negb].
  2:{ left. eexists. split; [reflexivity|].
      intros (c & u & [= <-] & Hs & _). congruence. }
  destruct (updateChannel cached) as [updated|] eqn:Hupdated.
  2:{ left. eexists. split; [reflexivity|].
      intros (c & u & [= <-] & _ & Hu & _). congruence. }
  destruct requireDisputed, (isDisputed updated) eqn:Hdisputed;
    cbn [negb andb].
  2:{ left. eexists. split; [reflexivity|].
      intros (c & u & [= <-] & _ & Hu & Hd & _).
      rewrite Hupdated in Hu. injection Hu as <-.
      specialize (Hd eq_refl). congruence. }
  all: match goal with
       | |- context [if negb ?gate then _ else _] =>
           destruct gate eqn:Hgate; cbn [negb]
       end.
  all: try (right; exists cached, updated;
            repeat (split; [first [reflexivity | assumption | congruence]|]);
            split;
            [destruct authorize; [exact Hgate|];
             apply negb_true_iff in Hgate;
             unfold BigNumber.isGreaterThanOrEqualTo in Hgate;
             apply Z.leb_gt in Hgate; exact Hgate
            |destruct confirmed; reflexivity]).
  all: left; eexists; (split; [reflexivity|]);
    intros (c & u & [= <-] & _ & Hu & _ & Hg);
    rewrite Hupdated in Hu; injection Hu as <-;
    destruct authorize; [congruence|];
    apply negb_false_iff in Hgate;
    unfold BigNumber.isGreaterThanOrEqualTo in Hgate;
    apply Z.leb_le in Hgate; lia.
Qed.


(** After the claim transaction has been submitted: when it is reverted or
    fails, the reducer fails and the queue keeps the cached channel; when it
    is confirmed, the cache is cleared as soon as one of 21 lookups finds
    the channel gone from the chain, and holds the refreshed channel when
    all 21 still find it. *)
Theorem claimIfProfitable_after_submission `{Externals} requireDisputed
    authorize updateChannel txFee confirmed fetchChannel cachedChannel w :
  calls
    (snd (claimIfProfitable requireDisputed authorize updateChannel txFee
            confirmed fetchChannel cachedChannel w))
  <> calls w ->
  let next :=
    reduce cachedChannel
      (fst (claimIfProfitable requireDisputed authorize updateChannel txFee
              confirmed fetchChannel cachedChannel w)) in
  exists cached updated,
    cachedChannel = Some cached
    /\ updateChannel cached = Some updated
    /\ (confirmed = false -> next = cachedChannel)
    /\ (confirmed = true ->
        (exists attempts,
           (attempts <= 20)%nat
           /\ fetchChannel attempts (PaymentChannel.channelId updated) = None) ->
        next = None)
    /\ (confirmed = true ->
        (forall attempts,
           (attempts <= 20)%nat ->
           fetchChannel attempts (PaymentChannel.channelId updated) <> None) ->
        next = Some updated).
Proof.
  intros Hsubmitted next. subst next.
  destruct (claimIfProfitable_cases requireDisputed authorize updateChannel
              txFee confirmed fetchChannel cachedChannel w)
    as [(next & E & _)|(cached & updated & Hc & _ & Hu & _ & _ & E)];
    rewrite E in *; [now contradict Hsubmitted|].
  exists cached, updated. split; [exact Hc|]. split; [exact Hu|].
  destruct (refreshChannel_claimed_cases 21 fetchChannel updated)
    as [[(attempts & Hrange & Hgone) Hrefresh]|[Hall Hrefresh]]; [lia | |].
  - repeat split.
    + intros ->. reflexivity.
    + intros -> _. simpl. exact Hrefresh.
    + intros -> Hstill. exfalso. apply (Hstill attempts); [lia | exact Hgone].
  - repeat split.
    + intros ->. reflexivity.
    + intros -> (attempts & Hrange & Hgone). exfalso.
      apply (Hall attempts); [lia | exact Hgone].
    + intros -> _. simpl. exact Hrefresh.
Qed.

(** ** The channel watcher *)

(** From the dispute to the claim: a tick of the watcher that finds the
    cached channel disputed keeps the watcher running, caches the refreshed
    channel and asks for a claim; the claim that follows is submitted when
    its fee is below [spent]; and once it is confirmed and the channel is
    gone from the chain, the cache is empty and the next tick stops the
    watcher. *)
Theorem watcher_claims_disputed_channel `{Externals} updateChannel txFee
    fetchChannel cached updated refreshed w :
  updateChannel cached = Some updated ->
  isDisputed updated = true ->
  truthy (PaymentChannel.signature updated) = true ->
  updateChannel updated = Some refreshed ->
  isDisputed refreshed = true ->
  BigNumber.value txFee < BigNumber.value (PaymentChannel.spent refreshed) ->
  fetchChannel 0%nat (PaymentChannel.channelId refreshed) = None ->
  let tick := startChannelWatcher_reducer updateChannel (Some cached) w in
  let claim :=
    claimIfProfitable true None updateChannel txFee true fetchChannel
      (fst (fst tick)) (snd (fst tick)) in
  let later :=
    startChannelWatcher_reducer updateChannel
      (reduce (fst (fst tick)) (fst claim)) (snd claim) in
  tick = (Some updated, w, true)
  /\ calls (snd claim)
     = calls w
       ++ [sendTransaction_claim (PaymentChannel.channelId refreshed)
             (PaymentChannel.spent refreshed)
             (PaymentChannel.signature refreshed)]
  /\ reduce (fst (fst tick)) (fst claim) = None
  /\ fst (fst later) = None
  /\ watcher (snd (fst later)) = false
  /\ snd later = false.
Proof.
  intros Hupdated Hdisputed Hsigned Hrefreshed Hstill Hfee Hgone tick claim
    later.
  assert (Htick : tick = (Some updated, w, true)).
  { subst tick. unfold startChannelWatcher_reducer.
    now rewrite Hupdated, Hdisputed. }
  assert (Hclaim :
    claim
    = (resolved None,
       call
         (sendTransaction_claim (PaymentChannel.channelId refreshed)
            (PaymentChannel.spent refreshed)
            (PaymentChannel.signature refreshed)) w)).
  { subst claim. rewrite Htick. cbn [fst snd]. unfold claimIfProfitable.
    rewrite Hsigned, Hrefreshed, Hstill. cbn [negb andb].
    unfold BigNumber.isGreaterThanOrEqualTo.
    destruct (Z.leb_spec (BigNumber.value (PaymentChannel.spent refreshed))
                (BigNumber.value txFee)); [lia|].
    cbn [negb]. change 21%nat with (S 20). cbn [refreshChannel_claimed].
    change (20 - 20)%nat with 0%nat. now rewrite Hgone. }
  subst later. rewrite Hclaim, Htick. cbn [fst snd reduce].
  repeat split; reflexivity.
Qed.

(** ** [fundOutgoingChannel] *)

(** A message links its address, or changes nothing. *)
Lemma linkEthereumAddress_cases `{Externals} info_data w :
  linkEthereumAddress info_data w = w
  \/ exists address,
       info_ethereumAddress info_data = Some address
       /\ truthy (ethereumAddress (account w)) = false
       /\ linkEthereumAddress info_data w = set_ethereumAddress address w.
Proof.
  unfold info_ethereumAddress, linkEthereumAddress.
  destruct (JSON_parse info_data) as [[| | | | |fields]|]; simpl;
    try (now left).
  destruct (lookup_field "ethereumAddress" fields) as [[| | |address| |]|];
    try (now left).
  destruct (isAddress address); simpl; [|now left].
  destruct (truthy (ethereumAddress (account w))) eqn:Hlinked.
  - left. now destruct (ethereumAddress (account w)); repeat case_test.
  - right. eauto.
Qed.

Lemma refreshChannel_opened_skip (k remaining : nat) fetchChannel channelId :
  (remaining + k = 21)%nat ->
  (forall attempts, (attempts < k)%nat -> fetchChannel attempts channelId = None) ->
  refreshChannel_opened 21 fetchChannel channelId
  = refreshChannel_opened remaining fetchChannel channelId.
Proof.
  revert remaining. induction k as [|k IH]; intros remaining Hsum Hnone.
  { now replace remaining with 21%nat by lia. }
  rewrite (IH (S remaining)) by (try lia; intros; apply Hnone; lia).
  cbn [refreshChannel_opened].
  replace (20 - remaining)%nat with k by lia.
  now rewrite Hnone by lia.
Qed.


(** Opening a channel: when no channel is cached, no address is linked yet
    and the peer answers the [info] request with a valid address, the address
    is linked and, once the fee is authorized, one [open] transaction is
    submitted, to that address, from our own, with the value in wei. When
    the transaction is confirmed, the cache holds the first view of the
    channel that the chain gives within 21 attempts, and stays empty when it
    gives none. *)
Theorem fundOutgoingChannel_opens `{Externals} master value authorize
    outgoingDisputePeriod updateChannel info_data channelId txFee
    fetchChannel updateChannel_after w c rest :
  ethereumAddress (account w) = None ->
  info_ethereumAddress info_data = Some (String c rest) ->
  authorize txFee = true ->
  let funded :=
    fundOutgoingChannel master value authorize outgoingDisputePeriod
      updateChannel (Some (Some info_data)) channelId txFee true fetchChannel
      updateChannel_after None w in
  snd (fst funded) = set_ethereumAddress (String c rest) w
  /\ snd funded
     = [tx_open channelId (String c rest) outgoingDisputePeriod
          (convert_gwei_wei value) (_ethereumAddress master)]
  /\ (forall (k : nat) opened,
        (k <= 20)%nat ->
        (forall attempts, (attempts < k)%nat ->
           fetchChannel attempts channelId = None) ->
        fetchChannel k channelId = Some opened ->
        fst (fst funded) = resolved (Some opened))
  /\ ((forall attempts, (attempts <= 20)%nat ->
         fetchChannel attempts channelId = None) ->
      fst (fst funded) = resolved None).
Proof.
  intros Hunlinked Hcarried Hauthorized funded.
  assert (Hlinked :
    fetchEthereumAddress (Some (Some info_data)) w
    = set_ethereumAddress (String c rest) w).
  { unfold fetchEthereumAddress. rewrite Hunlinked.
    destruct (linkEthereumAddress_cases info_data w)
      as [E|(address & Hcarried' & _ & E)].
    - exfalso. revert E Hcarried.
      unfold info_ethereumAddress, linkEthereumAddress.
      rewrite Hunlinked.
      destruct (JSON_parse info_data) as [[| | | | |fields]|]; simpl;
        try discriminate.
      destruct (lookup_field "ethereumAddress" fields)
        as [[| | |address| |]|]; try discriminate.
      destruct (isAddress address); simpl; [|discriminate].
      intros E _. apply (f_equal (fun w => ethereumAddress (account w))) in E.
      simpl in E. congruence.
    - congruence. }
  assert (Hfunded :
    funded
    = (resolved (refreshChannel_opened 21 fetchChannel channelId),
       set_ethereumAddress (String c rest) w,
       [tx_open channelId (String c rest) outgoingDisputePeriod
          (convert_gwei_wei value) (_ethereumAddress master)])).
  { subst funded. unfold fundOutgoingChannel. rewrite Hlinked. simpl.
    now rewrite Hauthorized. }
  rewrite Hfunded. cbn [fst snd].
  split; [reflexivity|]. split; [reflexivity|]. split.
  - intros k opened Hk Hnone Hfound. f_equal.
    rewrite (refreshChannel_opened_skip k (21 - k)) by (try lia; exact Hnone).
    replace (21 - k)%nat with (S (20 - k)) by lia.
    cbn [refreshChannel_opened].
    replace (20 - (20 - k))%nat with k by lia. now rewrite Hfound.
  - intros Hnone. f_equal.
    now rewrite (refreshChannel_opened_skip 21 0)
      by (try lia; intros; apply Hnone; lia).
Qed.





(** ** [handleData], message by message *)

(** The first sub-protocol of a name, when the message carries one. *)
Lemma getBtpSubprotocol_carried message name :
  (exists p, In p message /\ protocolName p = name) ->
  exists found,
    getBtpSubprotocol message name = Some found
    /\ In found message /\ protocolName found = name.
Proof.
  intros (p & Hin & Hname). unfold getBtpSubprotocol.
  destruct (List.find (fun p => String.eqb (protocolName p) name) message)
    as [found|] eqn:Hfind.
  - apply List.find_some in Hfind as [Hfound Heq].
    apply String.eqb_eq in Heq. eauto.
  - apply (List.find_none _ _ Hfind) in Hin.
    apply String.eqb_neq in Hin. contradiction.
Qed.

(** No claim changes a link of the store. *)
Lemma validateClaim_store_links `{Externals} master fetchChannel claim
    cachedChannel w key linkedAccount :
  _store w !! key = Some linkedAccount ->
  _store (snd (validateClaim master fetchChannel claim cachedChannel w)) !! key
  = Some linkedAccount.
Proof.
  intros Hkey. unfold validateClaim.
  destruct cachedChannel as [cached|].
  - now rewrite validateClaim_attempts_cached_store.
  - destruct (validateClaim_attempts_new 21 master fetchChannel claim w)
      as [->|(Hfree & updated & ->)]; [exact Hkey|].
    rewrite validateClaim_credit_store. simpl.
    rewrite lookup_insert_ne; [exact Hkey|]. intros <-. congruence.
Qed.

Lemma account_persistAccountData w : account (persistAccountData w) = account w.
Proof. reflexivity. Qed.

Lemma store_persistAccountData w : _store (persistAccountData w) = _store w.
Proof. reflexivity. Qed.

Lemma calls_persistAccountData w : calls (persistAccountData w) = calls w.
Proof. reflexivity. Qed.

(** One message: what it may change. *)
Lemma handleData_effects `{Externals} master env message cachedChannel w :
  let after := world (handleData master env message cachedChannel w) in
  payableBalance (account after) = payableBalance (account w)
  /\ payoutAmount (account after) = payoutAmount (account w)
  /\ (truthy (ethereumAddress (account w)) = true ->
      ethereumAddress (account after) = ethereumAddress (account w))
  /\ ((forall data a, deserializeIlpPrepare env data = inr a ->
         0 <= BigNumber.value a) ->
      BigNumber.value (receivableBalance (account w))
      <= BigNumber.value (_maxBalance master) ->
      BigNumber.value (receivableBalance (account after))
      <= BigNumber.value (_maxBalance master))
  /\ (forall key linkedAccount,
        _store w !! key = Some linkedAccount ->
        _store after !! key = Some linkedAccount)
  /\ (calls after = calls w
      \/ exists amount, calls after = calls w ++ [moneyHandler amount]).
Proof.
  intros after. subst after. unfold handleData.
  destruct (getBtpSubprotocol message "info") as [info|].
  { cbn [world].
    destruct (linkEthereumAddress_cases (data info) w)
      as [->|(address & _ & Hunlinked & ->)]; simpl;
      repeat split; auto; congruence. }
  destruct (getBtpSubprotocol message "requestClose") as [requestClose|].
  { cbn [world]. repeat split; auto. }
  destruct (getBtpSubprotocol message "machinomy") as [machinomy|].
  { destruct (JSON_parse (data machinomy)) as [claim|];
      [|cbn [world]; repeat split; auto].
    destruct (hasValidSchema claim) as [[[[[value channelId] signature]
                                           contractAddress]|]|];
      cbn [world]; try (repeat split; auto; fail).
    rewrite account_persistAccountData, store_persistAccountData,
      calls_persistAccountData.
    destruct (validateClaim_effects master (chain_fetchChannel env)
                (SerializedClaim.mk (new_BigNumber env value) channelId
                   signature contractAddress) cachedChannel w)
      as (Hpayable & Hpayout & Haddress & _ & Hreceivable & Hcalls).
    split; [exact Hpayable|]. split; [exact Hpayout|].
    split; [intros _; exact Haddress|].
    split; [intros _ Hwithin; lia|].
    split; [intros key linked; apply validateClaim_store_links|].
    destruct Hcalls as [Hcalls|(amount & Hcalls & _)]; [now left|].
    right. eauto. }
  destruct (getBtpSubprotocol message "ilp") as [ilp|];
    [|cbn [world]; repeat split; auto].
  cbn [world].
  destruct (handleData_ilp_frame master (deserializeIlpPrepare env (data ilp))
              (dataHandler env (data ilp)) w) as [Hframe|[balance Hframe]];
    (split; [now rewrite Hframe|]); (split; [now rewrite Hframe|]);
    (split; [intros _; now rewrite Hframe|]);
    (split; [|rewrite Hframe; simpl; auto]);
    intros Hamounts Hwithin;
    (destruct (deserializeIlpPrepare env (data ilp)) as [err|a] eqn:Hprepare;
     [exact Hwithin|]);
    (apply handleData_ilp_bounded; [|exact Hwithin]);
    apply (Hamounts _ _ Hprepare).
Qed.

(** What [handleData] never does, whatever the message: it never changes
    [payableBalance] or [payoutAmount], never changes or removes a link of
    the store, and never calls anything but the money handler, once at
    most; it asks for [claimIfProfitable] when, and only when, the message
    carries [requestClose] and no [info]. *)
Theorem handleData_frame `{Externals} master env message cachedChannel w :
  let handled := handleData master env message cachedChannel w in
  payableBalance (account (world handled)) = payableBalance (account w)
  /\ payoutAmount (account (world handled)) = payoutAmount (account w)
  /\ (forall key linkedAccount,
        _store w !! key = Some linkedAccount ->
        _store (world handled) !! key = Some linkedAccount)
  /\ (calls (world handled) = calls w
      \/ exists amount,
           calls (world handled) = calls w ++ [moneyHandler amount])
  /\ (claimRequested handled = true
      <-> (exists p, In p message /\ protocolName p = "requestClose")
          /\ ~ (exists p, In p message /\ protocolName p = "info")).
Proof.
  intros handled.
  destruct (handleData_effects master env message cachedChannel w)
    as (Hpayable & Hpayout & _ & _ & Hstore & Hcalls).
  split; [exact Hpayable|]. split; [exact Hpayout|].
  split; [exact Hstore|]. split; [exact Hcalls|].
  subst handled. unfold handleData.
  destruct (getBtpSubprotocol message "info") as [info|] eqn:Hinfo.
  { cbn [claimRequested]. split; [discriminate|]. intros [_ Hnone].
    exfalso. apply Hnone. apply List.find_some in Hinfo as [Hin Heq].
    apply String.eqb_eq in Heq. eauto. }
  assert (Hnoinfo : ~ (exists p, In p message /\ protocolName p = "info")).
  { intros (p & Hin & Hname).
    apply (List.find_none _ _ Hinfo) in Hin.
    apply String.eqb_neq in Hin. contradiction. }
  destruct (getBtpSubprotocol message "requestClose") as [requestClose|]
    eqn:Hclose.
  { cbn [claimRequested]. split; [|reflexivity]. intros _.
    split; [|exact Hnoinfo].
    apply List.find_some in Hclose as [Hin Heq].
    apply String.eqb_eq in Heq. eauto. }
  assert (Hnoclose :
    ~ (exists p, In p message /\ protocolName p = "requestClose")).
  { intros (p & Hin & Hname).
    apply (List.find_none _ _ Hclose) in Hin.
    apply String.eqb_neq in Hin. contradiction. }
  assert (Hnever : forall handled', claimRequested handled' = false ->
    (claimRequested handled' = true
     <-> (exists p, In p message /\ protocolName p = "requestClose")
         /\ ~ (exists p, In p message /\ protocolName p = "info"))).
  { intros handled' ->. split; [discriminate | tauto]. }
  apply Hnever.
  repeat case_match; reflexivity.
Qed.

(** [info] comes first: a message that carries an [info] sub-protocol is
    answered with our address and nothing else, whatever else it carries; a
    PREPARE or a claim in the same message is not looked at, so that no
    balance, no channel, no channel link of the store changes and nothing is
    called. The world is as before, or the address of the peer has been
    linked (none was before), and that assignment has written the account
    to the store under its own key. *)
Theorem handleData_info_first `{Externals} master env message cachedChannel
    w :
  (exists p, In p message /\ protocolName p = "info") ->
  let handled := handleData master env message cachedChannel w in
  responses handled = Some [response_info (_ethereumAddress master)]
  /\ incoming handled = cachedChannel
  /\ claimRequested handled = false
  /\ receivableBalance (account (world handled))
     = receivableBalance (account w)
  /\ payableBalance (account (world handled)) = payableBalance (account w)
  /\ payoutAmount (account (world handled)) = payoutAmount (account w)
  /\ _store (world handled) = _store w
  /\ (world handled = w
      \/ exists address,
           truthy (ethereumAddress (account w)) = false
           /\ ethereumAddress (account (world handled)) = Some address
           /\ _store_accounts (world handled)
              = {[ accountName (account w) ]} ∪ _store_accounts w)
  /\ watcher (world handled) = watcher w
  /\ calls (world handled) = calls w.
Proof.
  intros Hinfo handled. subst handled. unfold handleData.
  destruct (getBtpSubprotocol_carried message "info" Hinfo)
    as (info & -> & _).
  cbn [responses incoming claimRequested world].
  destruct (linkEthereumAddress_cases (data info) w)
    as [->|(address & _ & Hunlinked & ->)]; simpl;
    repeat split; try reflexivity; [now left|].
  right. exists address. auto.
Qed.

Lemma handleData_all_invariant `{Externals} master env
    (P : World -> Prop) :
  (forall message cachedChannel w,
     P w -> P (world (handleData master env message cachedChannel w))) ->
  forall messages cachedChannel w,
    P w -> P (snd (handleData_all master env messages cachedChannel w)).
Proof.
  intros Hstep messages.
  induction messages as [|message rest IH]; intros cachedChannel w HP;
    [exact HP|].
  cbn [handleData_all]. apply IH. now apply Hstep.
Qed.

(** The balance of receivables stays within [maxBalance] over every series
    of messages, of any kind: when the packet codec gives non-negative
    amounts and the balance is within [maxBalance] before, it is so after
    every message. *)
Theorem handleData_within_maxBalance `{Externals} master env messages
    cachedChannel w :
  (forall data a, deserializeIlpPrepare env data = inr a ->
     0 <= BigNumber.value a) ->
  BigNumber.value (receivableBalance (account w))
  <= BigNumber.value (_maxBalance master) ->
  BigNumber.value
    (receivableBalance
       (account (snd (handleData_all master env messages cachedChannel w))))
  <= BigNumber.value (_maxBalance master).
Proof.
  intros Hamounts.
  apply (handleData_all_invariant master env
           (fun w => BigNumber.value (receivableBalance (account w))
                     <= BigNumber.value (_maxBalance master))).
  intros message cached w' Hwithin.
  now apply (handleData_effects master env message cached w').
Qed.

(** Once an address is linked, no series of messages of any kind changes
    it. *)
Theorem handleData_keeps_linked_address `{Externals} master env messages
    cachedChannel w :
  truthy (ethereumAddress (account w)) = true ->
  ethereumAddress
    (account (snd (handleData_all master env messages cachedChannel w)))
  = ethereumAddress (account w).
Proof.
  intros Hlinked.
  apply (handleData_all_invariant master env
           (fun w' => ethereumAddress (account w')
                      = ethereumAddress (account w)));
    [|reflexivity].
  intros message cached w' Hsame.
  rewrite <- Hsame.
  apply (handleData_effects master env message cached w').
  now rewrite Hsame.
Qed.

(** ** [_getAccount] *)

(** Get or create: the account that [_getAccount] returns is the one that
    the map holds under the name of the address afterwards; an account that
    exists is returned as it is, and the map with it; no other name changes;
    and every later call for an address of the same name returns the same
    account and adds nothing, also when the address differs from the one
    that the account was created for. *)
Theorem getAccount_get_or_create (Account : Type)
    (ilpAddressToAccount : string -> string)
    (new_EthereumAccount : string -> string -> Account)
    (address : string) (_accounts : gmap string Account) :
  let result :=
    _getAccount Account ilpAddressToAccount new_EthereumAccount address
      _accounts in
  snd result !! ilpAddressToAccount address = Some (fst result)
  /\ (forall existing,
        _accounts !! ilpAddressToAccount address = Some existing ->
        result = (existing, _accounts))
  /\ (forall accountName,
        accountName <> ilpAddressToAccount address ->
        snd result !! accountName = _accounts !! accountName)
  /\ (forall address',
        ilpAddressToAccount address' = ilpAddressToAccount address ->
        _getAccount Account ilpAddressToAccount new_EthereumAccount address'
          (snd result)
        = result).
Proof.
  intros result. subst result. unfold _getAccount.
  destruct (_accounts !! ilpAddressToAccount address) as [existing|] eqn:Hget;
    cbn [fst snd].
  - split; [exact Hget|]. split; [now intros ? [= <-]|].
    split; [reflexivity|]. intros address' ->. now rewrite Hget.
  - split; [apply lookup_insert_eq|]. split; [discriminate|].
    split; [intros name Hother; now apply lookup_insert_ne|].
    intros address' ->. now rewrite lookup_insert_eq.
Qed.

(** ** More examples *)

(** A PREPARE of 2000 is above the maximum of 1000. *)
Lemma handleData_maxPacketAmount_boundary_witness :
  handleData_ilp exampleMaster (inr (BigNumber.Int 2000)) (inr IlpFulfill)
    (exampleWorld 0 0 0)
  = (errorToReject
       (AmountTooLargeError (BigNumber.Int 2000)
          (_maxPacketAmount exampleMaster)),
     exampleWorld 0 0 0).
Proof.
  destruct (handleData_maxPacketAmount_boundary exampleMaster
              (BigNumber.Int 2000) (inr IlpFulfill) (exampleWorld 0 0 0))
    as [Hover _].
  apply Hover. simpl. lia.
Defined.

(** A fulfilled PREPARE of 600 on a balance of 400. *)
Lemma handleData_ilp_within_maxBalance_witness :
  BigNumber.value
    (receivableBalance
       (account
          (snd
             (handleData_ilp exampleMaster (inr (BigNumber.Int 600))
                (inr IlpFulfill) (exampleWorld 400 0 0)))))
  <= BigNumber.value (_maxBalance exampleMaster).
Proof.
  apply handleData_ilp_within_maxBalance; simpl; lia.
Defined.

(** A channel with 60 wei left and 5 gwei owed: the claim takes the 60 wei
    and the backlog is zero after it. *)
Lemma sendMoney_resets_payoutAmount_witness :
  BigNumber.value
    (payoutAmount
       (account
          (snd
             (sendMoney (H := exampleExternals) exampleMaster None
                (Some (exampleChannel 100 40)) (exampleWorld 0 5 0)))))
  = 0.
Proof.
  apply (sendMoney_resets_payoutAmount (H := exampleExternals) exampleMaster
           None (Some (exampleChannel 100 40)) (exampleWorld 0 5 0)
           (exampleChannel 100 100)).
  reflexivity.
Defined.

(** 5 gwei owed on a fresh channel of [10^11] wei. *)
Lemma sendMoney_settles_in_full_witness :
  exists next,
    fst
      (sendMoney (H := exampleExternals) exampleMaster None
         (Some (exampleChannel 100000000000 0)) (exampleWorld 0 5 0))
    = Some next
    /\ BigNumber.value (PaymentChannel.spent next) = 5000000000.
Proof.
  destruct (sendMoney_settles_in_full (H := exampleExternals) exampleMaster
              None (exampleChannel 100000000000 0) (exampleWorld 0 5 0))
    as (next & Hnext & _ & Hspent & _).
  - simpl. lia.
  - simpl. lia.
  - exists next. split; [exact Hnext | exact Hspent].
Defined.

(** The chain knows the channel from the third attempt on. *)
Lemma validateClaim_waits_for_channel_witness :
  validateClaim (H := exampleExternals) exampleMaster
    (exampleChain 2 None (Some (exampleChannel 100000000000 0)))
    (exampleClaim 10000000000) None (exampleWorld 50 0 0)
  = validateClaim (H := exampleExternals) exampleMaster
      (fun attempts channelId => Some (exampleChannel 100000000000 0))
      (exampleClaim 10000000000) None (exampleWorld 50 0 0).
Proof.
  destruct (validateClaim_waits_for_channel (H := exampleExternals)
              exampleMaster
              (exampleChain 2 None (Some (exampleChannel 100000000000 0)))
              (exampleClaim 10000000000) (exampleWorld 50 0 0))
    as [Hfound _].
  apply (Hfound 2%nat).
  - lia.
  - intros [|[|attempts]] Hbelow; [reflexivity | reflexivity | lia].
  - reflexivity.
Defined.

(** A first claim of negative value. *)
Lemma validateClaim_rejects_new_channel_witness :
  validateClaim (H := exampleExternals) exampleMaster
    (fun attempts channelId => Some (exampleChannel 100 0)) (exampleClaim (-5))
    None (exampleWorld 50 0 0)
  = (None, exampleWorld 50 0 0).
Proof.
  apply validateClaim_rejects_new_channel. left. reflexivity.
Defined.

(** A claim for 30 wei after one for 40 wei. *)
Lemma validateClaim_regression_ignored_witness :
  validateClaim (H := exampleExternals) exampleMaster
    (fun attempts channelId => None) (exampleClaim 30)
    (Some (exampleChannel 100 40)) (exampleWorld 50 0 0)
  = (Some (exampleChannel 100 40), exampleWorld 50 0 0).
Proof.
  apply validateClaim_regression_ignored. simpl. lia.
Defined.


(** A claim of 150 wei on a cached channel of 100 wei, which the chain
    shows with 200 wei from the third attempt on. *)
Lemma validateClaim_waits_for_deposit_witness :
  validateClaim (H := exampleExternals) exampleMaster
    (exampleChain 2 (Some (exampleChannel 100 0))
       (Some (exampleChannel 200 0)))
    (exampleClaim 150) (Some (exampleChannel 100 0)) (exampleWorld 50 0 0)
  = validateClaim (H := exampleExternals) exampleMaster
      (fun attempts channelId => Some (exampleChannel 200 0))
      (exampleClaim 150) (Some (exampleChannel 100 0)) (exampleWorld 50 0 0).
Proof.
  destruct (validateClaim_waits_for_deposit (H := exampleExternals)
              exampleMaster
              (exampleChain 2 (Some (exampleChannel 100 0))
                 (Some (exampleChannel 200 0)))
              (exampleClaim 150) (exampleChannel 100 0) (exampleWorld 50 0 0))
    as [Hfound _].
  - simpl. lia.
  - apply (Hfound 2%nat).
    + lia.
    + intros [|[|attempts]] Hbelow; [| |lia];
        (exists (exampleChannel 100 0); split; [reflexivity | simpl; lia]).
    + reflexivity.
    + simpl. lia.
Defined.

(** The sender owes 5 gwei and claims [5 * 10^9] wei; the receiver, who is
    owed 50 gwei, credits 5 gwei. *)
Lemma sendMoney_claim_is_credited_witness :
  exists next after,
    validateClaim (H := exampleExternals) exampleMaster
      (fun attempts channelId => None) (exampleClaim 5000000000)
      (Some (exampleChannel 100000000000 0)) (exampleWorld 50 0 0)
    = (Some next, after)
    /\ BigNumber.value (receivableBalance (account after)) = 45.
Proof.
  destruct (sendMoney_claim_is_credited (H := exampleExternals) exampleMaster
              exampleMaster (fun attempts channelId => None) None
              (exampleChannel 100000000000 0) (exampleWorld 0 5 0)
              (exampleChannel 100000000000 0) (exampleWorld 50 0 0)
              (exampleChannel 100000000000 5000000000)
              (exampleClaim 5000000000))
    as (next & after & Hresult & _ & _ & Hbalance); try reflexivity.
  exists next, after. split; [exact Hresult | exact Hbalance].
Defined.

(** A FULFILL of 5 gwei with nothing owed before. *)
Lemma handlePrepareResponse_fulfill_settles_witness :
  BigNumber.value
    (payableBalance
       (account
          (snd
             (sendMoney (H := exampleExternals) exampleMaster None
                (Some (exampleChannel 100000000000 0))
                (fst
                   (handlePrepareResponse (BigNumber.Int 5) IlpFulfill
                      (exampleWorld 0 0 0)))))))
  = 0.
Proof.
  destruct (handlePrepareResponse_fulfill_settles (H := exampleExternals)
              exampleMaster (BigNumber.Int 5)
              (exampleChannel 100000000000 0) (exampleWorld 0 0 0))
    as (_ & _ & next & _ & _ & _ & Hpayable).
  - reflexivity.
  - simpl. lia.
  - simpl. lia.
  - exact Hpayable.
Defined.

(** A T04 with nothing owed, on a channel with 40 of 100 wei spent. *)
Lemma handlePrepareResponse_reject_witness :
  exists next,
    fst
      (sendMoney (H := exampleExternals) exampleMaster None
         (Some (exampleChannel 100 40)) (exampleWorld 0 0 0))
    = Some next
    /\ BigNumber.value (PaymentChannel.spent next) = 40.
Proof.
  destruct (handlePrepareResponse_reject (H := exampleExternals) exampleMaster
              (BigNumber.Int 5) "T04" (exampleChannel 100 40)
              (exampleWorld 0 0 0)) as (_ & _ & Hresend).
  destruct Hresend as (next & Hnext & _ & Hspent).
  - simpl. lia.
  - reflexivity.
  - simpl. lia.
  - exists next. split; [exact Hnext | exact Hspent].
Defined.

(** A claim for 100000 wei at a fee of 50000 wei, confirmed, on a chain
    that has dropped the channel. *)
Lemma claimIfProfitable_after_submission_witness :
  reduce (Some (exampleChannel 1000000 100000))
    (fst
       (claimIfProfitable (H := exampleExternals) false None Some
          (BigNumber.Int 50000) true (fun attempts channelId => None)
          (Some (exampleChannel 1000000 100000)) (exampleWorld 0 0 0)))
  = None.
Proof.
  destruct (claimIfProfitable_after_submission (H := exampleExternals) false
              None Some (BigNumber.Int 50000) true
              (fun attempts channelId => None)
              (Some (exampleChannel 1000000 100000)) (exampleWorld 0 0 0))
    as (cached & updated & _ & _ & _ & Hcleared & _).
  - vm_compute. discriminate.
  - apply Hcleared; [reflexivity|]. exists 0%nat. split; [lia | reflexivity].
Defined.

(** The chain shows the channel under dispute; the claim for 100000 wei at
    a fee of 50000 wei closes it. *)
Lemma watcher_claims_disputed_channel_witness :
  startChannelWatcher_reducer (H := exampleExternals)
    (fun cached => Some (exampleDisputedChannel 1000000 100000))
    (Some (exampleChannel 1000000 100000)) (exampleWorld 0 0 0)
  = (Some (exampleDisputedChannel 1000000 100000), exampleWorld 0 0 0, true).
Proof.
  apply (watcher_claims_disputed_channel (H := exampleExternals)
           (fun cached => Some (exampleDisputedChannel 1000000 100000))
           (BigNumber.Int 50000) (fun attempts channelId => None)
           (exampleChannel 1000000 100000)
           (exampleDisputedChannel 1000000 100000)
           (exampleDisputedChannel 1000000 100000) (exampleWorld 0 0 0));
    reflexivity.
Defined.


(** The peer answers with [addressB]; the channel [0x02] of 1000 gwei is
    opened to it. *)
Lemma fundOutgoingChannel_opens_witness :
  snd
    (fundOutgoingChannel (H := exampleExternals) exampleMaster
       (BigNumber.Int 1000) (fun fee => true) (BigNumber.Int 100) Some
       (Some (Some addressB)) "0x02" (BigNumber.Int 21000) true
       (fun attempts channelId => None) (fun attempts channel => None) None
       (exampleWorld 0 0 0))
  = [tx_open "0x02" addressB (BigNumber.Int 100)
       (BigNumber.Int 1000000000000) addressA].
Proof.
  destruct (fundOutgoingChannel_opens (H := exampleExternals) exampleMaster
              (BigNumber.Int 1000) (fun fee => true) (BigNumber.Int 100) Some
              addressB "0x02" (BigNumber.Int 21000)
              (fun attempts channelId => None) (fun attempts channel => None)
              (exampleWorld 0 0 0) "0"%char
              "xbbbbbbbbbbbbbbbbbbbbbbbbbbbbbbbbbbbbbbbb")
    as (_ & Htx & _); [reflexivity | reflexivity | reflexivity |].
  exact Htx.
Defined.


(** A message with a PREPARE of 600 and an [info], for an account that the
    store does not hold yet: the balance stays 0 and no channel is linked;
    the address of the peer is linked, and that assignment writes the
    account to the store. *)
Lemma handleData_info_first_witness :
  let handled :=
    handleData (H := exampleExternals) exampleMaster exampleEnvironment
      [mkBtpSubProtocol "ilp" "600"; mkBtpSubProtocol "info" addressB]
      None (exampleNewWorld 0) in
  receivableBalance (account (world handled)) = BigNumber.Int 0
  /\ _store (world handled) = ∅
  /\ ethereumAddress (account (world handled)) = Some addressB
  /\ _store_accounts (world handled) = {[ "carol" ]}
  /\ calls (world handled) = [].
Proof.
  intros handled.
  destruct (handleData_info_first (H := exampleExternals) exampleMaster
              exampleEnvironment
              [mkBtpSubProtocol "ilp" "600"; mkBtpSubProtocol "info" addressB]
              None (exampleNewWorld 0))
    as (_ & _ & _ & Hbalance & _ & _ & Hstore & Hworld & _ & Hcalls).
  - exists (mkBtpSubProtocol "info" addressB). split; [|reflexivity].
    right. left. reflexivity.
  - split; [exact Hbalance|]. split; [exact Hstore|].
    destruct Hworld as [Hworld|(address & _ & Haddress & Haccounts)].
    + discriminate Hworld.
    + split; [reflexivity|]. split; [exact Haccounts | exact Hcalls].
Defined.

(** Three PREPAREs of 600, 600 and 13 on a balance of 0: the second one is
    over the maximum of 1000. *)
Lemma handleData_within_maxBalance_witness :
  BigNumber.value
    (receivableBalance
       (account
          (snd
             (handleData_all (H := exampleExternals) exampleMaster
                exampleEnvironment
                [[mkBtpSubProtocol "ilp" "600"];
                 [mkBtpSubProtocol "ilp" "600"];
                 [mkBtpSubProtocol "ilp" "13"]] None (exampleWorld 0 0 0)))))
  <= BigNumber.value (_maxBalance exampleMaster).
Proof.
  apply handleData_within_maxBalance.
  - intros data a. simpl.
    destruct (String.eqb data "garbage"); [discriminate|].
    intros [= <-]. simpl. lia.
  - simpl. lia.
Defined.

(** An account linked to [addressB] receives an [info] for [addressA] and a
    PREPARE. *)
Lemma handleData_keeps_linked_address_witness :
  ethereumAddress
    (account
       (snd
          (handleData_all (H := exampleExternals) exampleMaster
             exampleEnvironment
             [[mkBtpSubProtocol "info" addressA];
              [mkBtpSubProtocol "ilp" "600"]] None
             (set_ethereumAddress addressB (exampleWorld 0 0 0)))))
  = Some addressB.
Proof.
  apply (handleData_keeps_linked_address (H := exampleExternals) exampleMaster
           exampleEnvironment
           [[mkBtpSubProtocol "info" addressA];
            [mkBtpSubProtocol "ilp" "600"]] None
           (set_ethereumAddress addressB (exampleWorld 0 0 0))).
  reflexivity.
Defined.
